(** * Brain-tumour detection bot: result interpretation and follow-up chat

    A shallow embedding of [handle_image] and [handle_text] of [app.py]:
    the mapping of detected class indices to display strings, the
    de-duplication of findings, the memory slot
    [user_data['last_detected_tumors']] that the library keeps for each user,
    and the prompt and reply built for follow-up questions.

    The detector (YOLO), the image library, the Telegram transport and the
    hosted text generator are external: each call to them is an input of
    the model that either yields a value or raises. *)

From Stdlib Require Import ZArith QArith.QArith_base.
From stdpp Require Import gmap strings list fin_maps pretty.

Local Open Scope Z_scope.

(** ** Strings *)

(** Python's ["\n"]. *)
Definition nl : string := String (Ascii.ascii_of_nat 10) EmptyString.

(** The source file holds a few non-ASCII characters; they are kept as the
    bytes of their UTF-8 encoding. *)
Definition utf8 (codes : list nat) : string :=
  String.string_of_list_ascii (map Ascii.ascii_of_nat codes).

(** [sep.join(parts)]. *)
Definition join (sep : string) (parts : list string) : string :=
  String.concat sep parts.

(** [s.endswith(suffix)], as a proposition. *)
Definition ends_with (s suffix : string) : Prop :=
  ∃ front, s = front +:+ suffix.

(** [needle in s], as a proposition. *)
Definition contains (s needle : string) : Prop :=
  ∃ front back, s = front +:+ needle +:+ back.

(** ** Configuration tables (app.py, lines 29-42) *)

Definition CLASS_NAMES : gmap Z string :=
  <[0 := "Glioma Tumor"]> (<[1 := "Meningioma Tumor"]>
  (<[2 := "No-Tumor"]> (<[3 := "Pituitary Tumor"]> ∅))).

Definition SEVERITY_MAPPING : gmap Z string :=
  <[0 := "High Severity"]> (<[1 := "Low Severity"]>
  (<[3 := "Medium Severity"]> ∅)).

(** ** Detections *)

(** One element of [result.boxes]: [cls] is [int(box.cls[0])], [conf] the
    confidence score the detector attaches to the box. *)
Record box := { cls : Z; conf : Q }.

(** [CLASS_NAMES.get(class_id, "Unknown Type")] *)
Definition class_name_of (class_id : Z) : string :=
  default "Unknown Type" (CLASS_NAMES !! class_id).

(** [SEVERITY_MAPPING.get(class_id, "Unknown Severity")] *)
Definition severity_of (class_id : Z) : string :=
  default "Unknown Severity" (SEVERITY_MAPPING !! class_id).

(** [f"{class_name} ({severity})"] *)
Definition finding_text (class_name severity : string) : string :=
  class_name +:+ " (" +:+ severity +:+ ")".

(** The three accumulators of the detection loop. *)
Record tally := {
  detected_tumors : list string;
  detected_tumor_names_for_chatbot : list string;
  no_tumor_case_detected : bool
}.

(** Lines 108-110. *)
Definition tally0 : tally :=
  {| detected_tumors := [];
     detected_tumor_names_for_chatbot := [];
     no_tumor_case_detected := false |}.

(** One iteration of [for box in boxes] (lines 115-123). *)
Definition loop_body (t : tally) (b : box) : tally :=
  let class_id := cls b in
  let class_name := class_name_of class_id in
  if String.eqb class_name "No-Tumor" then
    {| detected_tumors := detected_tumors t;
       detected_tumor_names_for_chatbot := detected_tumor_names_for_chatbot t;
       no_tumor_case_detected := true |}
  else
    let severity := severity_of class_id in
    {| detected_tumors := detected_tumors t ++ [finding_text class_name severity];
       detected_tumor_names_for_chatbot :=
         detected_tumor_names_for_chatbot t ++ [class_name];
       no_tumor_case_detected := no_tumor_case_detected t |}.

(** Lines 112-123: the loop runs only when [boxes] is non-empty. *)
Definition scan_boxes (boxes : list box) : tally :=
  match boxes with
  | [] => tally0
  | _ :: _ => fold_left loop_body boxes tally0
  end.

(** ** De-duplication *)

Section Fromkeys.
Context {A K : Type} `{EqDecision K}.
Variable key : A → K.

(** Insertion into an insertion-ordered dictionary whose keys are the
    images under [key]: a key already present keeps its place. *)
Definition remember (kept : list A) (x : A) : list A :=
  if bool_decide (key x ∈ map key kept) then kept else kept ++ [x].

(** The elements of [l] whose key was not seen earlier in [l]. *)
Definition first_by (l : list A) : list A := fold_left remember l [].

(** The same, by structural recursion with the keys seen so far. *)
Fixpoint unseen (seen : list K) (l : list A) : list A :=
  match l with
  | [] => []
  | x :: l' =>
      if bool_decide (key x ∈ seen) then unseen seen l'
      else x :: unseen (key x :: seen) l'
  end.
End Fromkeys.

(** [list(dict.fromkeys(l))] (lines 126-127). *)
Definition fromkeys (l : list string) : list string := first_by (λ s, s) l.

(** ** The memory of a user and the transport *)

(** The values stored under ['last_detected_tumors']. *)
Inductive pyval :=
  | PyNone
  | PyList (items : list string).

(** Truth value of a stored value ([if last_tumors:]). *)
Definition truthy (v : pyval) : bool :=
  match v with
  | PyNone => false
  | PyList [] => false
  | PyList (_ :: _) => true
  end.

Definition LAST : string := "last_detected_tumors".

(** What the handlers ask of the outside world, in order. *)
Inductive effect :=
  | SendMessage (text : string)
  | ReplyText (text : string)
  | ReplyPhoto (photo : list Byte.byte) (caption : string)
  | EditMessageText (text : string)
  | GenerateContent (prompt : string).

(** [user_data] is [context.user_data], the dictionary the library keeps
    for the user who sent the update. *)
Record session := {
  user_data : gmap string pyval;
  trace : list effect
}.

Definition fresh : session := {| user_data := ∅; trace := [] |}.

(** ** Handlers as state-and-exception computations *)

Inductive outcome (A : Type) :=
  | Returned (a : A)
  | Raised.
Arguments Returned {A} a.
Arguments Raised {A}.

Definition M (A : Type) : Type := session → outcome A * session.

#[local] Instance M_ret : MRet M := λ A a s, (Returned a, s).

#[local] Instance M_bind : MBind M := λ A B f m s,
  match m s with
  | (Returned a, s') => f a s'
  | (Raised, s') => (Raised, s')
  end.

Definition raise {A} : M A := λ s, (Raised, s).

(** [try: body  except Exception: handler]; what [body] did to the
    session before raising stays done. *)
Definition try_except {A} (body handler : M A) : M A :=
  λ s, match body s with
       | (Returned a, s') => (Returned a, s')
       | (Raised, s') => handler s'
       end.

(** A call to an external collaborator that returns a value or raises. *)
Definition external {A} (answer : option A) : M A :=
  match answer with
  | Some a => mret a
  | None => raise
  end.

Definition emit (e : effect) : M unit :=
  λ s, (Returned tt, {| user_data := user_data s; trace := trace s ++ [e] |}).

(** [context.user_data[k] = v] *)
Definition store (k : string) (v : pyval) : M unit :=
  λ s, (Returned tt, {| user_data := <[k := v]> (user_data s); trace := trace s |}).

(** [context.user_data.get(k)] *)
Definition fetch (k : string) : M pyval :=
  λ s, (Returned (default PyNone (user_data s !! k)), s).

(** A step of an external collaborator that succeeds or raises. *)
Definition attempt (ok : bool) : M unit :=
  if ok then mret tt else raise.

(** A message handed to the transport: recorded when it goes through. *)
Definition deliver (ok : bool) (e : effect) : M unit :=
  if ok then emit e else raise.

(** ** Message texts *)

Definition ack_text : string :=
  "Scan received. Analyzing... " +:+ utf8 [195; 176; 197; 184; 194; 169; 194; 186]%nat.

Definition bullet : string := utf8 [195; 162; 226; 130; 172; 194; 162]%nat.

Definition no_tumor_caption : string :=
  "Analysis complete. The scan indicates no tumor was found.".

Definition nothing_caption : string :=
  "Analysis complete. I did not detect any of the conditions I'm trained to recognize in this scan.".

Definition retry_text : string :=
  "Sorry, I encountered an error during the analysis. Please try sending the scan again.".

Definition thinking_text : string :=
  "Consulting knowledge base... " +:+ utf8 [195; 176; 197; 184; 194; 167; 194; 160]%nat.

Definition disclaimer : string :=
  nl +:+ nl +:+ "**Important Disclaimer:** I am an AI assistant, not a medical professional. This information is for educational purposes only. Please consult a qualified doctor for diagnosis and medical advice.".

Definition fallback_text : string :=
  "I'm having trouble accessing my knowledge base right now. Please try again later.".

Definition general_context : string :=
  "A user is asking a general question about brain tumors.".

Definition instruction : string :=
  "Answer their question in a clear, simple, and reassuring tone. Provide general information only.".

(** ** handle_image (lines 80-149) *)

(** Lines 108-127: the loop, then both lists de-duplicated. *)
Definition interpret (boxes : list box) : tally :=
  let t := scan_boxes boxes in
  {| detected_tumors := fromkeys (detected_tumors t);
     detected_tumor_names_for_chatbot :=
       fromkeys (detected_tumor_names_for_chatbot t);
     no_tumor_case_detected := no_tumor_case_detected t |}.

(** Lines 134-135. *)
Definition findings_caption (findings : list string) : string :=
  let findings_text := join nl (map (λ finding, bullet +:+ " " +:+ finding) findings) in
  "**Analysis Complete.**" +:+ nl +:+ nl +:+ "Potential findings:" +:+ nl +:+
  findings_text +:+ nl +:+ nl +:+
  "You can now ask me questions for more information.".

(** Lines 130-141: the memory slot is written first, then the caption is
    chosen; the two branches without findings write the slot again. *)
Definition record_findings (t : tally) : M string :=
  store LAST (PyList (detected_tumor_names_for_chatbot t));;
  match detected_tumors t with
  | _ :: _ => mret (findings_caption (detected_tumors t))
  | [] =>
      if no_tumor_case_detected t then
        store LAST PyNone;; mret no_tumor_caption
      else
        store LAST PyNone;; mret nothing_caption
  end.

(** What the outside world answers during one photo update.
    [message_present] tells whether [update.message] is set: it is not when
    the photo arrives as an edited message or a channel post. *)
Record scan_world := {
  message_present : bool;               (* line 82 *)
  ack_sent : bool;                      (* line 84 *)
  photo_downloaded : bool;              (* lines 87-90 *)
  image_opened : bool;                  (* line 91 *)
  boxes_found : option (list box);      (* lines 94-95, 112 *)
  annotated : option (list Byte.byte);  (* lines 98-105 *)
  photo_sent : bool;                    (* line 143 *)
  retry_sent : bool                     (* line 149 *)
}.

(** The body of the [try] (lines 84-145, logging left out). *)
Definition image_body (w : scan_world) : M unit :=
  deliver (ack_sent w) (SendMessage ack_text);;
  attempt (photo_downloaded w);;
  attempt (image_opened w);;
  boxes ← external (boxes_found w);
  bio ← external (annotated w);
  caption_text ← record_findings (interpret boxes);
  deliver (photo_sent w) (ReplyPhoto bio caption_text).

(** Lines 82-83 and 147-149: [update.message.chat_id] is read before the
    [try]; the retry message is sent from the [except] branch, where
    nothing catches a failure of the transport. *)
Definition handle_image (w : scan_world) : M unit :=
  attempt (message_present w);;
  try_except (image_body w) (deliver (retry_sent w) (ReplyText retry_text)).

(** ** handle_text (lines 152-183) *)

(** Lines 161-165: the preamble, general unless the stored list is true. *)
Definition prompt_context_of (last_tumors : pyval) : string :=
  match last_tumors with
  | PyList (x :: rest) =>
      let tumor_list := join ", " (x :: rest) in
      "A user's brain scan analysis has indicated a potential '" +:+ tumor_list +:+
      "'. " +:+ "The user is now asking a follow-up question."
  | _ => general_context
  end.

(** Lines 167-169. *)
Definition build_prompt (last_tumors : pyval) (user_question : string) : string :=
  let prompt_context := prompt_context_of last_tumors in
  "You are a helpful medical information AI. " +:+ prompt_context +:+ " " +:+
  instruction +:+ nl +:+ nl +:+ "User's Question: '" +:+ user_question +:+ "'".

(** [gemini_model.generate_content(prompt)] followed by [response.text]:
    the hosted model is a function of the prompt that may fail. *)
Definition generate_content (gemini : string → option string) (prompt : string)
  : M string :=
  emit (GenerateContent prompt);; external (gemini prompt).

(** What the outside world answers during one text update. *)
Record text_world := {
  text_present : bool;                      (* line 154: [update.message] is set *)
  notice_sent : bool;                       (* line 157 *)
  hosted_model : string → option string;    (* lines 174-175 *)
  answer_shown : bool;                      (* line 177 *)
  fallback_shown : bool                     (* line 183 *)
}.

(** Lines 154 and 157 stand before the [try]; the edit that shows the
    answer is inside it, so a rejected edit is caught like a failure of the
    hosted model; the edit that shows the fallback is in the [except]
    branch. *)
Definition handle_text (user_question : string) (t : text_world) : M unit :=
  attempt (text_present t);;
  deliver (notice_sent t) (SendMessage thinking_text);;
  last_tumors ← fetch LAST;
  let prompt := build_prompt last_tumors user_question in
  try_except
    (response ← generate_content (hosted_model t) prompt;
     let bot_answer := response +:+ disclaimer in
     deliver (answer_shown t) (EditMessageText bot_answer))
    (let error_message := fallback_text +:+ disclaimer in
     deliver (fallback_shown t) (EditMessageText error_message)).

(** ** A chat as a sequence of updates *)




(** The boxes of a photo update whose processing got as far as the
    interpretation of the detections. *)
Definition analysed (w : scan_world) : option (list box) :=
  if message_present w && ack_sent w && photo_downloaded w && image_opened w then
    match boxes_found w, annotated w with
    | Some boxes, Some _ => Some boxes
    | _, _ => None
    end
  else None.


(** What an analysis leaves in the memory slot. *)
Definition recorded (boxes : list box) : pyval :=
  match detected_tumors (interpret boxes) with
  | _ :: _ => PyList (detected_tumor_names_for_chatbot (interpret boxes))
  | [] => PyNone
  end.

(** [context.user_data.get('last_detected_tumors')] of a session. *)
Definition read (s : session) : pyval := default PyNone (user_data s !! LAST).

Definition mk (class_id : Z) (confidence : Q) : box :=
  {| cls := class_id; conf := confidence |}.

(** ** Vocabulary of the statements *)

(** A class that is listed as a finding: its name is not the reserved one
    (the test of line 118). *)
Definition genuine (class_id : Z) : Prop := class_name_of class_id ≠ "No-Tumor".

#[local] Instance genuine_dec class_id : Decision (genuine class_id) :=
  decide (class_name_of class_id ≠ "No-Tumor").

(** The text listed for a class (lines 121-122). *)
Definition entry_of (class_id : Z) : string :=
  finding_text (class_name_of class_id) (severity_of class_id).

(** The caption chosen by lines 133-141. *)
Definition caption_of (t : tally) : string :=
  match detected_tumors t with
  | _ :: _ => findings_caption (detected_tumors t)
  | [] => if no_tumor_case_detected t then no_tumor_caption else nothing_caption
  end.

(** A photo update in which every external step succeeds. *)
Definition smooth (boxes : list box) (bio : list Byte.byte) : scan_world :=
  {| message_present := true;
     ack_sent := true; photo_downloaded := true; image_opened := true;
     boxes_found := Some boxes; annotated := Some bio; photo_sent := true;
     retry_sent := true |}.

(** The same photo update with other detections. *)
Definition with_boxes (w : scan_world) (boxes : list box) : scan_world :=
  {| message_present := message_present w;
     ack_sent := ack_sent w; photo_downloaded := photo_downloaded w;
     image_opened := image_opened w; boxes_found := Some boxes;
     annotated := annotated w; photo_sent := photo_sent w;
     retry_sent := retry_sent w |}.

(** De-duplication of detections by class id, first occurrence kept. *)
Definition distinct_classes (boxes : list box) : list box := first_by cls boxes.

(** The class ids behind the findings: first occurrences by name. *)
Definition finding_ids (boxes : list box) : list Z :=
  unseen class_name_of [] (filter genuine (cls <$> boxes)).

(** A session that also holds a key the handlers know nothing of. *)
Definition themed_chat : session :=
  {| user_data := <["theme" := PyList ["dark"]]> ∅; trace := [] |}.

(** The findings a caption could list at most. *)
Definition all_entries : list string :=
  ["Glioma Tumor (High Severity)"; "Meningioma Tumor (Low Severity)";
   "Pituitary Tumor (Medium Severity)"; "Unknown Type (Unknown Severity)"].

(** The session in which the hosted model is called: the notice is out
    and the prompt handed over. *)
Definition asked (s : session) (q : string) : session :=
  {| user_data := user_data s;
     trace := trace s ++ [SendMessage thinking_text;
                          GenerateContent (build_prompt (read s) q)] |}.

(** What the [except] branch of the photo handler does. *)
Definition retry (w : scan_world) (s : session) : outcome unit * session :=
  if retry_sent w then
    (Returned tt,
     {| user_data := user_data s; trace := trace s ++ [ReplyText retry_text] |})
  else (Raised, s).

(** What the [except] branch of the text handler does. *)
Definition fall_back (t : text_world) (s : session) : outcome unit * session :=
  if fallback_shown t then
    (Returned tt,
     {| user_data := user_data s;
        trace := trace s ++ [EditMessageText (fallback_text +:+ disclaimer)] |})
  else (Raised, s).


(** The text last handed to the transport for display. *)
Definition last_shown (s : session) : option string :=
  match last (trace s) with
  | Some (SendMessage text) | Some (ReplyText text) | Some (EditMessageText text) =>
      Some text
  | Some (ReplyPhoto _ caption) => Some caption
  | Some (GenerateContent _) | None => None
  end.

(** ** Scenarios *)

(** Two glioma boxes and one no-tumour box. *)
Definition mixed_scan : list box :=
  [mk 0 (9 # 10); mk 0 (1 # 2); mk 2 (99 # 100)].

(** A single no-tumour box. *)
Definition clear_scan : list box := [mk 2 (95 # 100)].

(** A box of a class the tables do not list. *)
Definition stray_box : box := mk 7 (1 # 2).

(** A chat that remembers a meningioma. *)
Definition meningioma_chat : session :=
  {| user_data := <[LAST := PyList ["Meningioma Tumor"]]> ∅; trace := [] |}.

(** A hosted model that is out of service. *)
Definition gemini_down : string → option string := λ _, None.

(** A hosted model that answers every prompt with the same sentence. *)
Definition gemini_fixed (answer : string) : string → option string :=
  λ _, Some answer.

(** A text update during which every call of the transport goes through. *)
Definition reliable (gemini : string → option string) : text_world :=
  {| text_present := true; notice_sent := true; hosted_model := gemini;
     answer_shown := true; fallback_shown := true |}.

(** The hosted model answers, but the transport rejects the edit that
    would show the answer (say, because of its markup). *)
Definition rejected_answer : text_world :=
  {| text_present := true; notice_sent := true;
     hosted_model := gemini_fixed "It is *usually benign.";
     answer_shown := false; fallback_shown := true |}.

(** The hosted model fails and the fallback cannot be shown either. *)
Definition dead_line : text_world :=
  {| text_present := true; notice_sent := true; hosted_model := gemini_down;
     answer_shown := false; fallback_shown := false |}.

(** A photo that cannot be opened, with a transport that fails to send
    the retry message. *)
Definition unreadable_unanswered : scan_world :=
  {| message_present := true;
     ack_sent := true; photo_downloaded := true; image_opened := false;
     boxes_found := None; annotated := None; photo_sent := false;
     retry_sent := false |}.

(** A photo that the image library cannot open. *)
Definition unreadable_photo : scan_world :=
  {| message_present := true;
     ack_sent := true; photo_downloaded := true; image_opened := false;
     boxes_found := None; annotated := None; photo_sent := false;
     retry_sent := true |}.

(** A glioma scan whose annotated photo the transport fails to send. *)
Definition lost_reply : scan_world :=
  {| message_present := true;
     ack_sent := true; photo_downloaded := true; image_opened := true;
     boxes_found := Some [mk 0 (9 # 10)]; annotated := Some [];
     photo_sent := false; retry_sent := true |}.

(** ** The command handlers and the handler table (lines 66-78, 195-198) *)

Definition welcome_message (user_name : string) : string :=
  utf8 [195; 176; 197; 184; 226; 128; 152; 226; 128; 185]%nat +:+
  " Hello, " +:+ user_name +:+ "!" +:+ nl +:+ nl +:+
  "I am the Brain Tumor Detection Bot. Please send me a brain scan image, and I will analyze it for potential tumor types.".

Definition help_text : string :=
  "**How to use me:**" +:+ nl +:+
  "1. **Analysis:** Send me a brain scan image (like an MRI)." +:+ nl +:+
  "2. **Follow-up:** After I provide the analysis, you can ask me questions about the detected tumor types for informational purposes.".

(** What the outside world answers while a command is handled: whether
    [update.message] is set (it is not for an edited message) and whether
    the reply goes through. *)
Record command_world := {
  command_present : bool;
  reply_sent : bool
}.

(** [start]: [user_name] is [update.effective_user.first_name]; the reply
    goes through [update.message] and nothing catches its failure. *)
Definition start (user_name : string) (c : command_world) : M unit :=
  attempt (command_present c);;
  deliver (reply_sent c) (ReplyText (welcome_message user_name)).

Definition help_command (c : command_world) : M unit :=
  attempt (command_present c);;
  deliver (reply_sent c) (ReplyText help_text).

(** [str.lower] on the letters a command can hold (ASCII). *)
Definition lower_ascii (c : Ascii.ascii) : Ascii.ascii :=
  let n := Ascii.nat_of_ascii c in
  if (65 <=? n)%nat && (n <=? 90)%nat then Ascii.ascii_of_nat (n + 32) else c.

Fixpoint lower (s : string) : string :=
  match s with
  | EmptyString => EmptyString
  | String c rest => String (lower_ascii c) (lower rest)
  end.

(** An incoming message as the filters of the transport classify it: a bot
    command, any other text, a photo, or something else (a sticker, a
    document, ...).  For a command, [command] is its name as typed, without
    the slash and without the bot name that may follow an at sign, and
    [for_this_bot] tells whether that bot name is absent or the name of
    this bot.  Every message comes with what the outside world will answer
    while it is handled. *)
Inductive message :=
  | CommandMessage (command : string) (for_this_bot : bool) (first_name : string)
      (c : command_world)
  | TextMessage (text : string) (t : text_world)
  | PhotoMessage (w : scan_world)
  | OtherMessage.

(** The filters of the four handlers registered by [main]. *)
Inductive handler_filter :=
  | OnCommand (command : string)
  | PHOTO
  | TEXT_and_not_COMMAND.

(** A command handler compares the lower-cased name of the command with
    its own, and takes only commands meant for this bot. *)
Definition accepts (f : handler_filter) (m : message) : bool :=
  match f, m with
  | OnCommand name, CommandMessage command for_this_bot _ _ =>
      for_this_bot && String.eqb (lower command) name
  | PHOTO, PhotoMessage _ => true
  | TEXT_and_not_COMMAND, TextMessage _ _ => true
  | _, _ => false
  end.

Inductive callback := Start | Help | HandleImage | HandleText.

(** Lines 195-198, in the order of registration. *)
Definition handlers : list (handler_filter * callback) :=
  [(OnCommand "start", Start); (OnCommand "help", Help);
   (PHOTO, HandleImage); (TEXT_and_not_COMMAND, HandleText)].

Definition invoke (c : callback) (m : message) : M unit :=
  match c, m with
  | Start, CommandMessage _ _ first_name c => start first_name c
  | Help, CommandMessage _ _ _ c => help_command c
  | HandleImage, PhotoMessage w => handle_image w
  | HandleText, TextMessage text t => handle_text text t
  | _, _ => mret tt
  end.

(** The transport hands a message to the first handler whose filter accepts
    it, and to none when no filter does. *)
Definition process_update (m : message) : M unit :=
  match find (λ h, accepts h.1 m) handlers with
  | Some h => invoke h.2 m
  | None => mret tt
  end.

Definition serve (messages : list message) (s : session) : session :=
  fold_left (λ s m, snd (process_update m s)) messages s.

Definition is_generate (e : effect) : bool :=
  match e with GenerateContent _ => true | _ => false end.

Definition is_text_message (m : message) : bool :=
  match m with TextMessage _ _ => true | _ => false end.

(** Number of calls of the hosted model recorded in a trace. *)
Definition generations (tr : list effect) : nat :=
  length (List.filter is_generate tr).

(** A text message whose handling gets as far as the hosted model: the
    update carries a message and the notice can be sent. *)
Definition reaches_model (m : message) : bool :=
  match m with
  | TextMessage _ t => text_present t && notice_sent t
  | _ => false
  end.

(** ** Several users *)

(** The library keeps one [user_data] dictionary for each user id and
    hands a handler the dictionary of the user who sent the update. *)
Record bot := {
  users : gmap Z (gmap string pyval);
  sent : list effect
}.

(** A handler run on behalf of a user. *)
Definition as_user (user_id : Z) (handler : M unit) (b : bot) : outcome unit * bot :=
  let before := {| user_data := default ∅ (users b !! user_id); trace := sent b |} in
  let after := handler before in
  (fst after,
   {| users := <[user_id := user_data (snd after)]> (users b);
      sent := trace (snd after) |}).

(** [context.user_data.get('last_detected_tumors')] of a user. *)
Definition read_user (b : bot) (user_id : Z) : pyval :=
  default PyNone (default ∅ (users b !! user_id) !! LAST).

(** A command whose update carries a message and whose reply goes
    through. *)
Definition answered : command_world :=
  {| command_present := true; reply_sent := true |}.

(** Two users: 1 remembers a meningioma, 2 has no memory yet. *)
Definition two_users : bot :=
  {| users := <[1 := <[LAST := PyList ["Meningioma Tumor"]]> ∅]> ∅; sent := [] |}.

(** ** Start-up (lines 22-24, 45-62 and 185-202) *)







(** ** setup.py: fetching the pre-trained weights *)

Module SetupPy.

Definition file_name : string := "yolov8n.pt".

Definition url : string :=
  "https://github.com/ultralytics/assets/releases/download/v8.3.0/" +:+ file_name.

(** The ['content-length'] header as [int] sees it. *)
Inductive header :=
  | Absent
  | Numeric (n : Z)
  | Malformed.

(** An HTTP answer: the chunks that [iter_content] yields and, if the
    stream breaks after them, the text of the error. *)
Record response := {
  status_code : Z;
  status_error : string;
  content_length : header;
  chunks : list (list Byte.byte);
  stream_error : option string
}.

(** What [requests.get] meets, and whether the file can be opened for
    writing. *)
Inductive network :=
  | Unreachable (details : string)
  | Answered (r : response).

Record machine := {
  disk : gmap string (list Byte.byte);
  stdout : list string;
  requested : list string
}.

Inductive exn :=
  | RequestException (details : string)
  | ValueError
  | OSError.

Definition S (A : Type) : Type := machine → (exn + A) * machine.

#[local] Instance S_ret : MRet S := λ A a m, (inr a, m).

#[local] Instance S_bind : MBind S := λ A B f c m,
  match c m with
  | (inr a, m') => f a m'
  | (inl e, m') => (inl e, m')
  end.

Definition throw {A} (e : exn) : S A := λ m, (inl e, m).

(** [try: body  except requests.exceptions.RequestException as e: handler] *)
Definition try_except_request {A} (body : S A) (handler : string → S A) : S A :=
  λ m, match body m with
       | (inl (RequestException details), m') => handler details m'
       | other => other
       end.

Definition print (line : string) : S unit :=
  λ m, (inr tt, {| disk := disk m; stdout := stdout m ++ [line];
                   requested := requested m |}).

(** [os.path.exists(path)] *)
Definition path_exists (path : string) : S bool :=
  λ m, (inr (bool_decide (is_Some (disk m !! path))), m).

(** [requests.get(url, stream=True)] *)
Definition get (net : network) (address : string) : S response :=
  λ m, let m' := {| disk := disk m; stdout := stdout m;
                    requested := requested m ++ [address] |} in
       match net with
       | Unreachable details => (inl (RequestException details), m')
       | Answered r => (inr r, m')
       end.

(** [response.raise_for_status()]: raises for the codes 4xx and 5xx. *)
Definition raise_for_status (r : response) : S unit :=
  if (400 <=? status_code r) && (status_code r <? 600)
  then throw (RequestException (status_error r))
  else mret tt.

(** [int(response.headers.get('content-length', 0))] *)
Definition total_size (r : response) : S Z :=
  match content_length r with
  | Absent => mret 0
  | Numeric n => mret n
  | Malformed => throw ValueError
  end.

(** [open(path, 'wb')]: the file is created, or emptied if it exists. *)
Definition open_wb (writable : bool) (path : string) : S unit :=
  if writable then
    λ m, (inr tt, {| disk := <[path := []]> (disk m); stdout := stdout m;
                     requested := requested m |})
  else throw OSError.

(** [file.write(data)] *)
Definition write (path : string) (data : list Byte.byte) : S unit :=
  λ m, (inr tt, {| disk := alter (λ old, old ++ data) path (disk m);
                   stdout := stdout m; requested := requested m |}).

(** Lines 27-29: the loop over the chunks; [n] is [progress_bar.n]. *)
Fixpoint receive (path : string) (body : list (list Byte.byte)) (n : Z) : S Z :=
  match body with
  | [] => mret n
  | data :: rest =>
      write path data;; receive path rest (n + Z.of_nat (length data))
  end.

(** Lines 19-35: the body of the [try]. *)
Definition download_body (net : network) (writable : bool) : S unit :=
  response ← get net url;
  raise_for_status response;;
  total_size_in_bytes ← total_size response;
  open_wb writable file_name;;
  n ← receive file_name (chunks response) 0;
  match stream_error response with Some e => throw (RequestException e) | None => mret tt end;;
  if bool_decide (total_size_in_bytes ≠ 0) && bool_decide (n ≠ total_size_in_bytes)
  then print "ERROR, something went wrong during download."
  else print ("Successfully downloaded '" +:+ file_name +:+ "'.").

(** Lines 37-41. *)
Definition report (e : string) : S unit :=
  print (nl +:+ "An error occurred while trying to download the model.");;
  print ("Error details: " +:+ e);;
  print (nl +:+ "Please check your internet connection, firewall, or proxy settings.");;
  print ("Alternatively, you can manually download the file from:" +:+ nl +:+ url +:+
         nl +:+ "and place it in the same directory as this script.").

Definition download_model_weights (net : network) (writable : bool) : S unit :=
  found ← path_exists file_name;
  if found : bool then
    print ("'" +:+ file_name +:+ "' already exists. Skipping download.")
  else
    print ("Downloading pre-trained model weights: " +:+ file_name);;
    try_except_request (download_body net writable) report.

(** The line printed at the end of a download that ran to its end
    (lines 32-35). *)
Definition verdict (declared received : Z) : string :=
  if bool_decide (declared ≠ 0) && bool_decide (received ≠ declared)
  then "ERROR, something went wrong during download."
  else "Successfully downloaded 'yolov8n.pt'.".

(** The size a header announces; none announced counts as 0. *)
Definition declared_size (h : header) : Z :=
  match h with Numeric n => n | _ => 0 end.

(** A status for which [raise_for_status] does not raise. *)
Definition acceptable (r : response) : Prop :=
  ¬ (400 ≤ status_code r < 600).

(** The four lines printed when a request error is caught. *)
Definition guidance (e : string) : list string :=
  [nl +:+ "An error occurred while trying to download the model.";
   "Error details: " +:+ e;
   nl +:+ "Please check your internet connection, firewall, or proxy settings.";
   "Alternatively, you can manually download the file from:" +:+ nl +:+
   url +:+ nl +:+ "and place it in the same directory as this script."].

End SetupPy.

(** ** train.py: the GPU check and the training run *)

Module TrainPy.

(** An external call that answers or raises with an error text. *)
Inductive answer (A : Type) :=
  | Fine (a : A)
  | Fails (e : string).
Arguments Fine {A} a.
Arguments Fails {A} e.

Record rig := {
  cuda_is_available : answer bool;
  cuda_device_name : answer string;
  torch_version : string;
  present : string → bool;           (* [os.path.exists] *)
  yolo_loads : answer unit;          (* [YOLO(weights_path)] *)
  training : answer unit             (* [model.train(...)] *)
}.

Inductive act :=
  | Print (line : string)
  | LoadYOLO (weights : string)
  | Train (data : string) (epochs imgsz device : Z) (project name : string).

(** Lines 5-27: what is done, and the device index returned ([None] on
    failure). *)
Definition verify_gpu_setup (r : rig) : list act * option Z :=
  let banner := [Print "--- Verifying GPU Setup ---"] in
  match cuda_is_available r with
  | Fails e => (banner ++ [Print ("An error occurred during GPU verification: " +:+ e)], None)
  | Fine false =>
      (banner ++
       [Print (nl +:+ "ERROR: PyTorch cannot detect a CUDA-enabled GPU.");
        Print ("Current PyTorch version: " +:+ torch_version r);
        Print "This version is CPU-only. Training cannot continue on the GPU.";
        Print (nl +:+ "Please follow the instructions to uninstall this version and reinstall the correct GPU version of PyTorch.")],
       None)
  | Fine true =>
      match cuda_device_name r with
      | Fails e =>
          (banner ++ [Print ("An error occurred during GPU verification: " +:+ e)], None)
      | Fine device_name =>
          (banner ++
           [Print "SUCCESS: GPU detected!";
            Print ("Device: " +:+ device_name);
            Print ("---------------------------" +:+ nl)],
           Some 0)
      end
  end.

(** [os.path.join(a, b)] with the separator of the platform. *)
Definition path_join (sep a b : string) : string := a +:+ sep +:+ b.

(** Lines 30-67. *)
Definition train_model (sep : string) (r : rig) : list act :=
  let '(checked, device) := verify_gpu_setup r in
  match device with
  | None => checked
  | Some device =>
      let data_yaml_path := path_join sep "Brain-Tumor-Detection-1" "data.yaml" in
      let weights_path := "yolov8n.pt" in
      if negb (forallb (present r) [data_yaml_path; weights_path]) then
        checked ++
        [Print "Error: Missing 'data.yaml' or 'yolov8n.pt'.";
         Print "Please run 'download_dataset.py' and 'setup.py' first."]
      else
        let started :=
          checked ++
          [Print ("--- Starting Training on GPU (cuda:" +:+ pretty device +:+ ") ---");
           LoadYOLO weights_path] in
        match yolo_loads r with
        | Fails e => started ++ [Print ("An error occurred during training: " +:+ e)]
        | Fine _ =>
            let trained :=
              started ++
              [Train data_yaml_path 100 640 device "runs/training"
                 "brain_tumor_yolov8_gpu"] in
            match training r with
            | Fails e => trained ++ [Print ("An error occurred during training: " +:+ e)]
            | Fine _ =>
                trained ++
                [Print (nl +:+ "Training completed successfully!");
                 Print "Model weights are saved in 'runs/training/brain_tumor_yolov8_gpu/weights'"]
            end
        end
  end.

Definition is_train (a : act) : bool :=
  match a with Train _ _ _ _ _ _ => true | _ => false end.

Definition is_load (a : act) : bool :=
  match a with LoadYOLO _ => true | _ => false end.

End TrainPy.

(** Scenarios for the scripts. *)

Definition empty_machine : SetupPy.machine :=
  {| SetupPy.disk := ∅; SetupPy.stdout := []; SetupPy.requested := [] |}.

(** A machine on which the weights are already there. *)
Definition provisioned_machine : SetupPy.machine :=
  {| SetupPy.disk := <[SetupPy.file_name := [Byte.x50; Byte.x4b]]> ∅;
     SetupPy.stdout := []; SetupPy.requested := [] |}.

(** An answer that announces five bytes and delivers three. *)
Definition short_answer : SetupPy.response :=
  {| SetupPy.status_code := 200; SetupPy.status_error := "200 OK";
     SetupPy.content_length := SetupPy.Numeric 5;
     SetupPy.chunks := [[Byte.x50; Byte.x4b]; [Byte.x03]];
     SetupPy.stream_error := None |}.

(** An answer with the status 404. *)
Definition missing_answer : SetupPy.response :=
  {| SetupPy.status_code := 404;
     SetupPy.status_error := "404 Client Error: Not Found";
     SetupPy.content_length := SetupPy.Absent;
     SetupPy.chunks := []; SetupPy.stream_error := None |}.

(** An answer whose length header is not a number. *)
Definition garbled_answer : SetupPy.response :=
  {| SetupPy.status_code := 200; SetupPy.status_error := "200 OK";
     SetupPy.content_length := SetupPy.Malformed;
     SetupPy.chunks := [[Byte.x50]]; SetupPy.stream_error := None |}.

(** * Properties *)

(** ** The two tables *)

Lemma class_name_known (class_id : Z) :
  (class_id = 0 ∧ class_name_of class_id = "Glioma Tumor") ∨
  (class_id = 1 ∧ class_name_of class_id = "Meningioma Tumor") ∨
  (class_id = 2 ∧ class_name_of class_id = "No-Tumor") ∨
  (class_id = 3 ∧ class_name_of class_id = "Pituitary Tumor") ∨
  (CLASS_NAMES !! class_id = None ∧ class_name_of class_id = "Unknown Type").
Proof.
  unfold class_name_of, CLASS_NAMES.
  destruct (decide (class_id = 0)) as [->|H0]; [left; by rewrite lookup_insert_eq|].
  rewrite (lookup_insert_ne _ 0) by done.
  destruct (decide (class_id = 1)) as [->|H1]; [right; left; by rewrite lookup_insert_eq|].
  rewrite (lookup_insert_ne _ 1) by done.
  destruct (decide (class_id = 2)) as [->|H2];
    [right; right; left; by rewrite lookup_insert_eq|].
  rewrite (lookup_insert_ne _ 2) by done.
  destruct (decide (class_id = 3)) as [->|H3];
    [right; right; right; left; by rewrite lookup_insert_eq|].
  rewrite (lookup_insert_ne _ 3) by done.
  rewrite lookup_empty. by repeat right.
Qed.

(** Only class 2 carries the reserved name. *)
Lemma reserved_iff (class_id : Z) :
  class_name_of class_id = "No-Tumor" ↔ class_id = 2.
Proof.
  destruct (class_name_known class_id)
    as [[-> E]|[[-> E]|[[-> E]|[[-> E]|[_ E]]]]]; rewrite E; split; try done.
  intros ->. by vm_compute in E.
Qed.

(** Every key of the severity table is a key of the name table. *)
Lemma severity_unknown (class_id : Z) :
  CLASS_NAMES !! class_id = None → SEVERITY_MAPPING !! class_id = None.
Proof.
  unfold CLASS_NAMES, SEVERITY_MAPPING. intros H.
  destruct (decide (class_id = 0)) as [->|H0]; [by rewrite lookup_insert_eq in H|].
  destruct (decide (class_id = 1)) as [->|H1]; [by vm_compute in H|].
  destruct (decide (class_id = 3)) as [->|H3]; [by vm_compute in H|].
  by rewrite !lookup_insert_ne, lookup_empty by done.
Qed.

(** ** The detection loop as a filter and two maps *)

Lemma genuine_iff (class_id : Z) : genuine class_id ↔ class_id ≠ 2.
Proof. unfold genuine. by rewrite reserved_iff. Qed.

Lemma loop_body_reserved (t : tally) (b : box) :
  ¬ genuine (cls b) →
  loop_body t b =
    {| detected_tumors := detected_tumors t;
       detected_tumor_names_for_chatbot := detected_tumor_names_for_chatbot t;
       no_tumor_case_detected := true |}.
Proof.
  unfold genuine, loop_body. intros H.
  destruct (String.eqb_spec (class_name_of (cls b)) "No-Tumor") as [E|E]; [done|].
  destruct H. done.
Qed.

Lemma loop_body_genuine (t : tally) (b : box) :
  genuine (cls b) →
  loop_body t b =
    {| detected_tumors := detected_tumors t ++ [entry_of (cls b)];
       detected_tumor_names_for_chatbot :=
         detected_tumor_names_for_chatbot t ++ [class_name_of (cls b)];
       no_tumor_case_detected := no_tumor_case_detected t |}.
Proof.
  unfold genuine, loop_body. intros H.
  by destruct (String.eqb_spec (class_name_of (cls b)) "No-Tumor") as [E|E].
Qed.

Lemma fold_loop_body (boxes : list box) (t : tally) :
  fold_left loop_body boxes t =
    {| detected_tumors :=
         detected_tumors t ++ (entry_of <$> filter genuine (cls <$> boxes));
       detected_tumor_names_for_chatbot :=
         detected_tumor_names_for_chatbot t ++
         (class_name_of <$> filter genuine (cls <$> boxes));
       no_tumor_case_detected :=
         no_tumor_case_detected t || bool_decide (2 ∈ (cls <$> boxes)) |}.
Proof.
  revert t. induction boxes as [|b boxes IH]; intros t.
  - destruct t. simpl. by rewrite !app_nil_r, orb_false_r.
  - cbn [fold_left fmap list_fmap]. rewrite IH.
    destruct (decide (genuine (cls b))) as [G|G].
    + rewrite (loop_body_genuine _ _ G), filter_cons_True by done. simpl.
      rewrite <- !app_assoc. simpl. f_equal. f_equal.
      apply bool_decide_ext. rewrite elem_of_cons.
      apply genuine_iff in G. split; [tauto | intros [E|E]; [congruence | done]].
    + rewrite (loop_body_reserved _ _ G), filter_cons_False by done. simpl.
      f_equal. assert (cls b = 2) as ->.
      { destruct (decide (cls b = 2)); [done|]. by destruct G; apply genuine_iff. }
      rewrite (bool_decide_eq_true_2 (2 ∈ 2 :: _)) by left.
      by rewrite orb_true_r.
Qed.

Lemma scan_boxes_spec (boxes : list box) :
  scan_boxes boxes =
    {| detected_tumors := entry_of <$> filter genuine (cls <$> boxes);
       detected_tumor_names_for_chatbot :=
         class_name_of <$> filter genuine (cls <$> boxes);
       no_tumor_case_detected := bool_decide (2 ∈ (cls <$> boxes)) |}.
Proof.
  destruct boxes as [|b boxes]; [done|].
  unfold scan_boxes. by rewrite fold_loop_body.
Qed.

(** ** De-duplication, by structural recursion *)

Section FromkeysFacts.
Context {A K : Type} `{EqDecision K}.
Variable key : A → K.

(** Only the set of keys seen matters. *)
Lemma unseen_ext (l : list A) (seen seen' : list K) :
  (∀ k, k ∈ seen ↔ k ∈ seen') → unseen key seen l = unseen key seen' l.
Proof.
  revert seen seen'. induction l as [|x l IH]; intros seen seen' Hs; [done|].
  simpl. rewrite (bool_decide_ext _ _ (Hs (key x))).
  case_bool_decide.
  - by apply IH.
  - f_equal. apply IH. intros k. rewrite !elem_of_cons, Hs. done.
Qed.

Lemma fold_remember (l kept : list A) :
  fold_left (remember key) l kept = kept ++ unseen key (map key kept) l.
Proof.
  revert kept. induction l as [|x l IH]; intros kept.
  - simpl. by rewrite app_nil_r.
  - cbn [fold_left unseen]. rewrite IH. unfold remember.
    case_bool_decide as Hx; [done|].
    rewrite <- app_assoc. simpl. do 2 f_equal.
    apply unseen_ext. intros k.
    rewrite map_app, elem_of_app, elem_of_cons. simpl.
    rewrite list_elem_of_singleton. tauto.
Qed.

Lemma first_by_unseen (l : list A) : first_by key l = unseen key [] l.
Proof. unfold first_by. by rewrite fold_remember. Qed.

(** Keys that were kept or seen are exactly the keys met. *)
Lemma unseen_keys (l : list A) (seen : list K) (k : K) :
  k ∈ seen ∨ k ∈ key <$> unseen key seen l ↔ k ∈ seen ∨ k ∈ key <$> l.
Proof.
  revert seen. induction l as [|x l IH]; intros seen; [done|].
  cbn [unseen]. case_bool_decide as Hx.
  - rewrite IH, fmap_cons, elem_of_cons.
    split; [tauto | intros [?|[->|?]]; tauto].
  - rewrite !fmap_cons, !elem_of_cons.
    specialize (IH (key x :: seen)). rewrite !elem_of_cons in IH. tauto.
Qed.

(** No key is kept twice, nor kept when already seen. *)
Lemma unseen_NoDup (l : list A) (seen : list K) :
  NoDup (key <$> unseen key seen l) ∧
  ∀ k, k ∈ seen → k ∉ key <$> unseen key seen l.
Proof.
  revert seen. induction l as [|x l IH]; intros seen.
  - split; [constructor | intros k _; apply not_elem_of_nil].
  - cbn [unseen]. case_bool_decide as Hx; [apply IH|].
    destruct (IH (key x :: seen)) as [ND Hfresh]. split.
    + rewrite fmap_cons. constructor; [|done]. apply Hfresh. left.
    + intros k Hk. rewrite fmap_cons, elem_of_cons. intros [->|Hin]; [done|].
      apply (Hfresh k); [by right | done].
Qed.

(** A list without repeated keys is left as it is. *)
Lemma unseen_id (l : list A) (seen : list K) :
  NoDup (key <$> l) → (∀ k, k ∈ seen → k ∉ key <$> l) →
  unseen key seen l = l.
Proof.
  revert seen. induction l as [|x l IH]; intros seen ND Hfresh; [done|].
  rewrite fmap_cons in ND, Hfresh. apply NoDup_cons in ND as [Hx ND].
  cbn [unseen]. case_bool_decide as Hs.
  - destruct (Hfresh _ Hs). left.
  - f_equal. apply IH; [done|].
    intros k [->|Hk]%elem_of_cons; [done|].
    intros Hin. apply (Hfresh k Hk). by right.
Qed.
End FromkeysFacts.

(** De-duplicating the images is de-duplicating by image. *)
Lemma unseen_fmap {A K} `{EqDecision K} (f : A → K) (l : list A) (seen : list K) :
  unseen (λ k, k) seen (f <$> l) = f <$> unseen f seen l.
Proof.
  revert seen. induction l as [|x l IH]; intros seen; [done|].
  rewrite fmap_cons. cbn [unseen]. case_bool_decide; [done|].
  by rewrite fmap_cons, IH.
Qed.

(** What survives a filter and a map after de-duplication of the source is
    what survives them without it, once the target is de-duplicated. *)
Lemma unseen_filter_fmap {A B} `{EqDecision A, EqDecision B}
    (P : A → Prop) `{∀ x, Decision (P x)} (g : A → B)
    (l : list A) (seen : list A) (seen' : list B) :
  (∀ x, x ∈ seen → P x → g x ∈ seen') →
  unseen (λ y, y) seen' (g <$> filter P (unseen (λ x, x) seen l)) =
  unseen (λ y, y) seen' (g <$> filter P l).
Proof.
  revert seen seen'. induction l as [|x l IH]; intros seen seen' Hs; [done|].
  cbn [unseen]. case_bool_decide as Hx.
  - destruct (decide (P x)) as [Px|Px].
    + rewrite (filter_cons_True P x l) by done. rewrite fmap_cons. cbn [unseen].
      rewrite bool_decide_eq_true_2 by auto. by apply IH.
    + rewrite (filter_cons_False P x l) by done. by apply IH.
  - destruct (decide (P x)) as [Px|Px].
    + rewrite !filter_cons_True by done. rewrite !fmap_cons. cbn [unseen].
      case_bool_decide as Hg.
      * apply IH. intros y [->|Hy]%elem_of_cons; auto.
      * f_equal. apply IH. intros y [->|Hy]%elem_of_cons Py; [left|right; auto].
    + rewrite !filter_cons_False by done. apply IH.
      intros y [->|Hy]%elem_of_cons; [done | auto].
Qed.

Lemma fromkeys_unseen (l : list string) : fromkeys l = unseen (λ s, s) [] l.
Proof. apply first_by_unseen. Qed.

(** ** The interpretation in closed form *)

Lemma interpret_spec (boxes : list box) :
  interpret boxes =
    {| detected_tumors := fromkeys (entry_of <$> filter genuine (cls <$> boxes));
       detected_tumor_names_for_chatbot :=
         fromkeys (class_name_of <$> filter genuine (cls <$> boxes));
       no_tumor_case_detected := bool_decide (2 ∈ (cls <$> boxes)) |}.
Proof. unfold interpret. by rewrite scan_boxes_spec. Qed.


(** Both lists of an interpretation are empty together. *)
Lemma interpret_empty_together (boxes : list box) :
  detected_tumors (interpret boxes) = [] ↔
  detected_tumor_names_for_chatbot (interpret boxes) = [].
Proof.
  rewrite interpret_spec. cbn [detected_tumors detected_tumor_names_for_chatbot].
  rewrite !fromkeys_unseen.
  destruct (filter genuine (cls <$> boxes)) as [|class_id ids]; [done|].
  rewrite !fmap_cons. cbn [unseen].
  rewrite !bool_decide_eq_false_2 by apply not_elem_of_nil. done.
Qed.

(** ** The handlers in closed form *)

Lemma record_findings_spec (boxes : list box) (s : session) :
  record_findings (interpret boxes) s =
    (Returned (caption_of (interpret boxes)),
     {| user_data := <[LAST := recorded boxes]> (user_data s); trace := trace s |}).
Proof.
  unfold record_findings, caption_of, recorded, mbind, M_bind, store, mret, M_ret.
  destruct (detected_tumors (interpret boxes)) as [|f fs]; [|done].
  destruct (no_tumor_case_detected (interpret boxes));
    cbn [user_data trace]; by rewrite insert_insert_eq.
Qed.

Lemma image_body_analysed (w : scan_world) (boxes : list box) (s : session) :
  analysed w = Some boxes →
  ∃ bio, annotated w = Some bio ∧
    image_body w s =
      (if photo_sent w then Returned tt else Raised,
       {| user_data := <[LAST := recorded boxes]> (user_data s);
          trace := trace s ++ [SendMessage ack_text] ++
                   (if photo_sent w
                    then [ReplyPhoto bio (caption_of (interpret boxes))]
                    else []) |}).
Proof.
  unfold analysed, image_body.
  destruct w as [[] [] [] [] [b|] [bio|] sent retry]; try done.
  cbn [andb ack_sent photo_downloaded image_opened boxes_found annotated photo_sent].
  intros [= ->]. exists bio. split; [done|].
  unfold mbind, M_bind, deliver, attempt, external, emit, mret, M_ret.
  cbn [user_data trace]. rewrite record_findings_spec.
  destruct sent; cbn [user_data trace raise]; unfold raise;
    by rewrite <- ?app_assoc, ?app_nil_r.
Qed.

Lemma image_body_not_analysed (w : scan_world) (s : session) :
  message_present w = true →
  analysed w = None →
  image_body w s =
    (Raised,
     {| user_data := user_data s;
        trace := trace s ++ (if ack_sent w then [SendMessage ack_text] else []) |}).
Proof.
  unfold analysed, image_body. destruct s as [ud tr].
  destruct w as [[] [] [] [] [b|] [bio|] sent retry]; try done; intros _ _;
    unfold mbind, M_bind, deliver, attempt, external, emit, mret, M_ret, raise;
    cbn [user_data trace ack_sent photo_downloaded image_opened boxes_found annotated];
    by rewrite ?app_nil_r.
Qed.

Lemma analysed_present (w : scan_world) (boxes : list box) :
  analysed w = Some boxes → message_present w = true ∧ ack_sent w = true.
Proof. unfold analysed. by destruct (message_present w), (ack_sent w). Qed.

(** An update without a message stops the handler at line 82. *)
Lemma handle_image_absent (w : scan_world) (s : session) :
  message_present w = false → handle_image w s = (Raised, s).
Proof. unfold handle_image, mbind, M_bind, attempt. by intros ->. Qed.

Lemma handle_image_present (w : scan_world) (s : session) :
  message_present w = true →
  handle_image w s =
    try_except (image_body w) (deliver (retry_sent w) (ReplyText retry_text)) s.
Proof. unfold handle_image, mbind, M_bind, attempt. by intros ->. Qed.

Lemma handle_image_smooth (boxes : list box) (bio : list Byte.byte) (s : session) :
  handle_image (smooth boxes bio) s =
    (Returned tt,
     {| user_data := <[LAST := recorded boxes]> (user_data s);
        trace := trace s ++ [SendMessage ack_text;
                             ReplyPhoto bio (caption_of (interpret boxes))] |}).
Proof.
  rewrite handle_image_present by done. unfold try_except.
  destruct (image_body_analysed (smooth boxes bio) boxes s eq_refl)
    as (bio' & [= <-] & ->). done.
Qed.

Lemma handle_text_spec (q : string) (t : text_world) (s : session) :
  handle_text q t s =
    if text_present t && notice_sent t then
      match hosted_model t (build_prompt (read s) q) with
      | Some response =>
          if answer_shown t then
            (Returned tt,
             {| user_data := user_data s;
                trace := trace (asked s q) ++
                         [EditMessageText (response +:+ disclaimer)] |})
          else fall_back t (asked s q)
      | None => fall_back t (asked s q)
      end
    else (Raised, s).
Proof.
  unfold handle_text, try_except, generate_content, fetch, read, fall_back, asked.
  unfold mbind, M_bind, external, deliver, attempt, emit, mret, M_ret, raise.
  destruct (text_present t); [|done]. destruct (notice_sent t); [|done].
  cbn [andb user_data trace].
  destruct (hosted_model t _); cbn [user_data trace];
    destruct (answer_shown t), (fallback_shown t); cbn [user_data trace];
    by rewrite <- ?app_assoc.
Qed.

Lemma handle_text_user_data (q : string) (t : text_world) (s : session) :
  user_data (snd (handle_text q t s)) = user_data s.
Proof.
  rewrite handle_text_spec. unfold fall_back, asked.
  destruct (text_present t && notice_sent t); [|done].
  by destruct (hosted_model t _), (answer_shown t), (fallback_shown t).
Qed.

(** ** Facts about [fromkeys] *)

Lemma fmap_self {A} (l : list A) : (λ x : A, x) <$> l = l.
Proof. exact (list_fmap_id l). Qed.

Lemma fromkeys_NoDup (l : list string) : NoDup (fromkeys l).
Proof.
  rewrite fromkeys_unseen.
  destruct (unseen_NoDup (λ s : string, s) l []) as [ND _].
  by rewrite fmap_self in ND.
Qed.

Lemma fromkeys_elem (l : list string) (x : string) : x ∈ fromkeys l ↔ x ∈ l.
Proof.
  rewrite fromkeys_unseen.
  pose proof (unseen_keys (λ s : string, s) l [] x) as H.
  rewrite !fmap_self in H.
  split; intros Hx.
  - destruct (proj1 H (or_intror Hx)) as [Hn|]; [by apply not_elem_of_nil in Hn|done].
  - destruct (proj2 H (or_intror Hx)) as [Hn|]; [by apply not_elem_of_nil in Hn|done].
Qed.

Lemma fromkeys_nil (l : list string) : fromkeys l = [] ↔ l = [].
Proof.
  split; [|by intros ->].
  destruct l as [|x l]; [done|]. intros E.
  assert (x ∈ fromkeys (x :: l)) as Hx by (apply fromkeys_elem; left).
  rewrite E in Hx. by apply not_elem_of_nil in Hx.
Qed.


(** The names kept by an interpretation are the names of the non-reserved
    classes detected. *)
Lemma interpret_names_elem (boxes : list box) (name : string) :
  name ∈ detected_tumor_names_for_chatbot (interpret boxes) ↔
  ∃ b, b ∈ boxes ∧ cls b ≠ 2 ∧ name = class_name_of (cls b).
Proof.
  rewrite interpret_spec. cbn [detected_tumor_names_for_chatbot].
  rewrite fromkeys_elem, list_elem_of_fmap. split.
  - intros (class_id & -> & [G (b & -> & Hb)%list_elem_of_fmap]%list_elem_of_filter).
    exists b. by apply genuine_iff in G.
  - intros (b & Hb & Hne & ->). exists (cls b). split; [done|].
    apply list_elem_of_filter. split; [by apply genuine_iff|].
    by apply list_elem_of_fmap_2.
Qed.

Lemma interpret_findings_elem (boxes : list box) (finding : string) :
  finding ∈ detected_tumors (interpret boxes) ↔
  ∃ b, b ∈ boxes ∧ cls b ≠ 2 ∧
       finding = finding_text (class_name_of (cls b)) (severity_of (cls b)).
Proof.
  rewrite interpret_spec. cbn [detected_tumors].
  rewrite fromkeys_elem, list_elem_of_fmap. split.
  - intros (class_id & -> & [G (b & -> & Hb)%list_elem_of_fmap]%list_elem_of_filter).
    exists b. by apply genuine_iff in G.
  - intros (b & Hb & Hne & ->). exists (cls b). split; [done|].
    apply list_elem_of_filter. split; [by apply genuine_iff|].
    by apply list_elem_of_fmap_2.
Qed.

Lemma interpret_flag (boxes : list box) :
  no_tumor_case_detected (interpret boxes) = true ↔ ∃ b, b ∈ boxes ∧ cls b = 2.
Proof.
  rewrite interpret_spec. cbn [no_tumor_case_detected].
  rewrite bool_decide_eq_true, list_elem_of_fmap.
  split; [intros (b & E & Hb) | intros (b & Hb & E)]; by exists b.
Qed.


(** ** Mixed detections *)



(** ** Scans without findings *)

(** C2. If every detection of a non-empty sequence is of the reserved
    class 2, there is no finding, the no-tumour flag is set, the memory slot
    is emptied and the caption is the no-tumour message.  With no detection
    at all there is no finding either, the flag stays clear, the slot is
    emptied and the caption is the nothing-recognised message. *)
Theorem scans_without_findings (bio : list Byte.byte) (s : session) :
  (∀ boxes, boxes ≠ [] → (∀ b, b ∈ boxes → cls b = 2) →
     detected_tumors (interpret boxes) = [] ∧
     detected_tumor_names_for_chatbot (interpret boxes) = [] ∧
     no_tumor_case_detected (interpret boxes) = true ∧
     handle_image (smooth boxes bio) s =
       (Returned tt,
        {| user_data := <[LAST := PyNone]> (user_data s);
           trace := trace s ++
             [SendMessage ack_text;
              ReplyPhoto bio
                "Analysis complete. The scan indicates no tumor was found."] |})) ∧
  (detected_tumors (interpret []) = [] ∧
   detected_tumor_names_for_chatbot (interpret []) = [] ∧
   no_tumor_case_detected (interpret []) = false ∧
   handle_image (smooth [] bio) s =
     (Returned tt,
      {| user_data := <[LAST := PyNone]> (user_data s);
         trace := trace s ++
           [SendMessage ack_text;
            ReplyPhoto bio
              "Analysis complete. I did not detect any of the conditions I'm trained to recognize in this scan."] |})) ∧
  truthy PyNone = false.
Proof.
  split; [|split; [|done]].
  - intros boxes Hne Hall.
    assert (detected_tumor_names_for_chatbot (interpret boxes) = []) as Hn.
    { destruct (detected_tumor_names_for_chatbot (interpret boxes))
        as [|name names] eqn:E; [done|].
      assert (name ∈ detected_tumor_names_for_chatbot (interpret boxes)) as Hin
        by (rewrite E; left).
      apply interpret_names_elem in Hin as (b & Hb & Hne' & _).
      by destruct Hne'; apply Hall. }
    assert (no_tumor_case_detected (interpret boxes) = true) as Hflag.
    { apply interpret_flag. destruct boxes as [|b boxes]; [done|].
      exists b. split; [left | apply Hall; left]. }
    assert (detected_tumors (interpret boxes) = []) as Hf.
    { by apply interpret_empty_together. }
    repeat split; try done.
    rewrite handle_image_smooth. unfold recorded, caption_of.
    by rewrite Hf, Hflag.
  - repeat split. by rewrite handle_image_smooth.
Qed.

Lemma clear_scan_outcome :
  clear_scan ≠ [] ∧ (∀ b, b ∈ clear_scan → cls b = 2) ∧
  detected_tumors (interpret clear_scan) = [] ∧
  no_tumor_case_detected (interpret clear_scan) = true ∧
  read (snd (handle_image (smooth clear_scan []) meningioma_chat)) = PyNone ∧
  last_shown (snd (handle_image (smooth clear_scan []) meningioma_chat)) =
    Some no_tumor_caption.
Proof.
  assert (clear_scan ≠ []) as H1 by done.
  assert (∀ b, b ∈ clear_scan → cls b = 2) as H2.
  { intros b Hb. apply list_elem_of_singleton in Hb. by subst b. }
  destruct (scans_without_findings [] meningioma_chat) as [Hclear _].
  destruct (Hclear clear_scan H1 H2) as (Ef & _ & Eflag & Eh).
  split; [exact H1|]. split; [exact H2|]. split; [exact Ef|].
  split; [exact Eflag|]. rewrite Eh. split; reflexivity.
Defined.

(** ** Classes the tables do not list *)

(** C5. A detection whose class id is not a key of the name table gets the
    name 'Unknown Type'; the severity table has no entry for it either, so
    the default text 'Unknown Severity' stands in; the detection is appended
    to both lists as a finding and leaves the no-tumour flag as it is. *)
Theorem unlisted_class_is_unknown_type (t : tally) (b : box) :
  CLASS_NAMES !! cls b = None →
  class_name_of (cls b) = "Unknown Type" ∧
  SEVERITY_MAPPING !! cls b = None ∧
  severity_of (cls b) = "Unknown Severity" ∧
  genuine (cls b) ∧
  loop_body t b =
    {| detected_tumors := detected_tumors t ++ ["Unknown Type (Unknown Severity)"];
       detected_tumor_names_for_chatbot :=
         detected_tumor_names_for_chatbot t ++ ["Unknown Type"];
       no_tumor_case_detected := no_tumor_case_detected t |} ∧
  (∀ boxes, b ∈ boxes →
     "Unknown Type" ∈ detected_tumor_names_for_chatbot (interpret boxes) ∧
     "Unknown Type (Unknown Severity)" ∈ detected_tumors (interpret boxes)).
Proof.
  intros Hnone.
  assert (class_name_of (cls b) = "Unknown Type") as Hname.
  { unfold class_name_of. by rewrite Hnone. }
  assert (SEVERITY_MAPPING !! cls b = None) as Hsev by by apply severity_unknown.
  assert (severity_of (cls b) = "Unknown Severity") as Hs.
  { unfold severity_of. by rewrite Hsev. }
  assert (genuine (cls b)) as G.
  { unfold genuine. by rewrite Hname. }
  repeat split; try done.
  - rewrite (loop_body_genuine _ _ G). unfold entry_of. by rewrite Hname, Hs.
  - apply interpret_names_elem. exists b. rewrite Hname.
    repeat split; try done. by apply genuine_iff.
  - apply interpret_findings_elem. exists b. rewrite Hname, Hs.
    repeat split; try done. by apply genuine_iff.
Qed.

Lemma stray_box_outcome :
  CLASS_NAMES !! cls stray_box = None ∧
  class_name_of (cls stray_box) = "Unknown Type" ∧
  detected_tumors (interpret [stray_box]) = ["Unknown Type (Unknown Severity)"] ∧
  detected_tumor_names_for_chatbot (loop_body tally0 stray_box) = ["Unknown Type"].
Proof.
  assert (CLASS_NAMES !! cls stray_box = None) as H by reflexivity.
  destruct (unlisted_class_is_unknown_type tally0 stray_box H)
    as (En & _ & _ & _ & El & _).
  split; [exact H|]. split; [exact En|]. split; [reflexivity|].
  rewrite El. reflexivity.
Defined.

(** ** The no-tumour flag *)

(** C10. The flag is set exactly when some detection resolves, through the
    name table, to 'No-Tumor'; that name belongs to class 2 alone, so a
    class missing from the table (named 'Unknown Type') and the classes 0, 1
    and 3 leave the flag as they found it. *)
Theorem flag_iff_reserved_detected (boxes : list box) :
  (no_tumor_case_detected (interpret boxes) = true ↔
     ∃ b, b ∈ boxes ∧ class_name_of (cls b) = "No-Tumor") ∧
  (no_tumor_case_detected (scan_boxes boxes) = no_tumor_case_detected (interpret boxes)) ∧
  (∀ class_id, class_name_of class_id = "No-Tumor" ↔ class_id = 2) ∧
  (∀ class_id, CLASS_NAMES !! class_id = None →
     class_name_of class_id = "Unknown Type") ∧
  (∀ t b, cls b ≠ 2 →
     no_tumor_case_detected (loop_body t b) = no_tumor_case_detected t) ∧
  (∀ t b, cls b = 2 → no_tumor_case_detected (loop_body t b) = true).
Proof.
  split; [|split; [|split; [|split; [|split]]]].
  - rewrite interpret_flag.
    split; intros (b & Hb & E); exists b; (split; [done|]); by apply reserved_iff.
  - done.
  - apply reserved_iff.
  - intros class_id H. unfold class_name_of. by rewrite H.
  - intros t b Hne. rewrite loop_body_genuine; [done|]. by apply genuine_iff.
  - intros t b E. rewrite loop_body_reserved; [done|].
    intros G. by apply genuine_iff in G.
Qed.

(** ** The handler sees detections only through their interpretation *)

Lemma handle_image_interpret (w : scan_world) (boxes boxes' : list box) (s : session) :
  interpret boxes = interpret boxes' →
  handle_image (with_boxes w boxes) s = handle_image (with_boxes w boxes') s.
Proof.
  intros E. unfold handle_image, try_except, image_body, with_boxes.
  cbn [ack_sent photo_downloaded image_opened boxes_found annotated photo_sent].
  unfold mbind, M_bind, external, mret, M_ret. by rewrite E.
Qed.

Lemma recorded_interpret (boxes boxes' : list box) :
  interpret boxes = interpret boxes' → recorded boxes = recorded boxes'.
Proof. unfold recorded. by intros ->. Qed.

(** ** De-duplication before and after *)

Section FirstOccurrence.
Context {A K : Type} `{EqDecision K}.
Variable key : A → K.

(** Marking a key as seen is dropping its occurrences. *)
Lemma unseen_cons_filter (l : list A) (seen : list K) (k : K) :
  unseen key (k :: seen) l = unseen key seen (filter (λ x, key x ≠ k) l).
Proof.
  revert seen. induction l as [|x l IH]; intros seen; [done|].
  cbn [unseen]. destruct (decide (key x = k)) as [E|E].
  - rewrite filter_cons_False by (intros N; by apply N).
    rewrite bool_decide_eq_true_2 by (rewrite E; left). apply IH.
  - rewrite filter_cons_True by done. cbn [unseen].
    rewrite (bool_decide_ext (key x ∈ k :: seen) (key x ∈ seen)).
    2:{ rewrite elem_of_cons. tauto. }
    case_bool_decide; [apply IH|]. f_equal.
    rewrite <- IH. apply unseen_ext. intros k'. rewrite !elem_of_cons. tauto.
Qed.

(** The first element is kept and its key never kept again. *)
Lemma first_by_cons (x : A) (l : list A) :
  first_by key (x :: l) = x :: first_by key (filter (λ y, key y ≠ key x) l).
Proof.
  rewrite !first_by_unseen. cbn [unseen].
  rewrite bool_decide_eq_false_2 by apply not_elem_of_nil.
  by rewrite unseen_cons_filter.
Qed.
End FirstOccurrence.

Lemma distinct_classes_ids (boxes : list box) :
  cls <$> distinct_classes boxes = unseen (λ i : Z, i) [] (cls <$> boxes).
Proof. unfold distinct_classes. by rewrite first_by_unseen, unseen_fmap. Qed.

(** C7. Interpreting a detection sequence gives the same findings, the
    same names for the memory slot and the same flag as interpreting the
    sequence from which every detection of an already seen class id was
    removed first; the whole handler behaves alike on both. *)
Theorem interpret_after_distinct_classes (boxes : list box) :
  interpret (distinct_classes boxes) = interpret boxes ∧
  recorded (distinct_classes boxes) = recorded boxes ∧
  (∀ w s, handle_image (with_boxes w (distinct_classes boxes)) s =
          handle_image (with_boxes w boxes) s) ∧
  NoDup (cls <$> distinct_classes boxes) ∧
  (∀ class_id, class_id ∈ cls <$> distinct_classes boxes ↔ class_id ∈ cls <$> boxes) ∧
  (∀ b rest, distinct_classes (b :: rest) =
             b :: distinct_classes (filter (λ b', cls b' ≠ cls b) rest)) ∧
  distinct_classes (distinct_classes boxes) = distinct_classes boxes ∧
  fromkeys (detected_tumors (interpret boxes)) = detected_tumors (interpret boxes).
Proof.
  assert (interpret (distinct_classes boxes) = interpret boxes) as E.
  { rewrite !interpret_spec, distinct_classes_ids, !fromkeys_unseen.
    rewrite !(unseen_filter_fmap genuine _ (cls <$> boxes) [] [])
      by (intros x Hx; by apply not_elem_of_nil in Hx).
    f_equal. apply bool_decide_ext.
    pose proof (unseen_keys (λ i : Z, i) (cls <$> boxes) [] 2) as Hk.
    rewrite !fmap_self in Hk. split; intros H2.
    - destruct (proj1 Hk (or_intror H2)) as [N|]; [by apply not_elem_of_nil in N|done].
    - destruct (proj2 Hk (or_intror H2)) as [N|]; [by apply not_elem_of_nil in N|done]. }
  destruct (unseen_NoDup cls boxes []) as [ND _].
  split; [exact E|]. split; [by apply recorded_interpret|].
  split; [intros w s; by apply handle_image_interpret|].
  split; [unfold distinct_classes; by rewrite first_by_unseen|].
  split.
  { intros class_id. unfold distinct_classes. rewrite first_by_unseen.
    pose proof (unseen_keys cls boxes [] class_id) as Hk. split; intros Hc.
    - destruct (proj1 Hk (or_intror Hc)) as [N|]; [by apply not_elem_of_nil in N|done].
    - destruct (proj2 Hk (or_intror Hc)) as [N|]; [by apply not_elem_of_nil in N|done]. }
  split; [intros b rest; apply first_by_cons|].
  split.
  - unfold distinct_classes. rewrite !first_by_unseen.
    apply unseen_id; [done|]. intros k Hk. by apply not_elem_of_nil in Hk.
  - rewrite fromkeys_unseen. apply unseen_id.
    + rewrite fmap_self. unfold interpret. apply fromkeys_NoDup.
    + intros k Hk. by apply not_elem_of_nil in Hk.
Qed.

(** ** Confidence scores *)

(** C9. Two detection sequences of the same length whose class ids agree
    position by position are interpreted alike, whatever their confidence
    scores: same findings, same flag, same caption, same memory slot, and
    the handler does the same on both. *)
Theorem confidence_is_never_read (boxes boxes' : list box) :
  Forall2 (λ b b', cls b = cls b') boxes boxes' →
  length boxes = length boxes' ∧
  interpret boxes = interpret boxes' ∧
  caption_of (interpret boxes) = caption_of (interpret boxes') ∧
  recorded boxes = recorded boxes' ∧
  (∀ w s, handle_image (with_boxes w boxes) s = handle_image (with_boxes w boxes') s).
Proof.
  intros Hcls.
  assert (cls <$> boxes = cls <$> boxes') as Hids.
  { induction Hcls as [|b b' l l' Hb _ IH]; [done|]. by rewrite !fmap_cons, Hb, IH. }
  assert (interpret boxes = interpret boxes') as E.
  { by rewrite !interpret_spec, Hids. }
  split; [by eapply Forall2_length|]. split; [exact E|].
  split; [by rewrite E|]. split; [by apply recorded_interpret|].
  intros w s. by apply handle_image_interpret.
Qed.

Lemma confidence_is_never_read_example :
  Forall2 (λ b b', cls b = cls b')
    [mk 0 (9 # 10); mk 2 (1 # 2)] [mk 0 (1 # 100); mk 2 (99 # 100)] ∧
  interpret [mk 0 (9 # 10); mk 2 (1 # 2)] =
    interpret [mk 0 (1 # 100); mk 2 (99 # 100)] ∧
  handle_image (with_boxes (smooth [] []) [mk 0 (9 # 10); mk 2 (1 # 2)]) fresh =
    handle_image (with_boxes (smooth [] []) [mk 0 (1 # 100); mk 2 (99 # 100)]) fresh.
Proof.
  assert (Forall2 (λ b b', cls b = cls b')
            [mk 0 (9 # 10); mk 2 (1 # 2)] [mk 0 (1 # 100); mk 2 (99 # 100)]) as H.
  { repeat constructor. }
  destruct (confidence_is_never_read _ _ H) as (_ & E & _ & _ & Eh).
  split; [exact H|]. split; [exact E|]. apply Eh.
Defined.

(** ** Follow-up questions *)

Lemma append_assoc (a b c : string) : (a +:+ b) +:+ c = a +:+ b +:+ c.
Proof.
  induction a as [|ch a IH]; [done|].
  change (String ch ((a +:+ b) +:+ c) = String ch (a +:+ b +:+ c)).
  by rewrite IH.
Qed.

Lemma append_nil_r (a : string) : a +:+ EmptyString = a.
Proof.
  induction a as [|ch a IH]; [done|].
  change (String ch (a +:+ EmptyString) = String ch a). by rewrite IH.
Qed.

(** C8. Once the update carries a message and the notice is out, the
    hosted model is called, once, with [build_prompt] of the stored list
    and the question, and at most one reply is shown after the call (one
    whenever the fallback can be shown).  When the stored list is non-empty the
    prompt holds the preamble that quotes the labels joined by a comma and
    a space as what the scan has indicated; when the slot is empty, [None]
    or was never written, it holds the general brain-tumour framing.  Either
    way it holds the fixed instruction and the question as typed. *)
Theorem prompt_carries_last_findings
    (s : session) (user_question : string) (t : text_world) :
  let prompt := build_prompt (read s) user_question in
  (text_present t = true → notice_sent t = true →
   ∃ shown, trace (snd (handle_text user_question t s)) =
              trace s ++ [SendMessage thinking_text; GenerateContent prompt] ++ shown ∧
            (shown = [] ∨ ∃ text, shown = [EditMessageText text]) ∧
            (fallback_shown t = true → ∃ text, shown = [EditMessageText text])) ∧
  (∀ labels, read s = PyList labels → labels ≠ [] →
     contains prompt
       ("A user's brain scan analysis has indicated a potential '" +:+
        join ", " labels +:+
        "'. The user is now asking a follow-up question.")) ∧
  (read s = PyList [] ∨ read s = PyNone ∨ user_data s !! LAST = None →
     contains prompt "A user is asking a general question about brain tumors.") ∧
  contains prompt
    "Answer their question in a clear, simple, and reassuring tone. Provide general information only." ∧
  contains prompt ("User's Question: '" +:+ user_question +:+ "'").
Proof.
  intros prompt. split; [|split; [|split; [|split]]].
  - intros Hp Hn. rewrite handle_text_spec, Hp, Hn. cbn [andb]. fold prompt.
    unfold fall_back, asked. fold prompt.
    destruct (hosted_model t prompt) as [response|], (answer_shown t),
      (fallback_shown t); cbn [snd trace]; rewrite <- ?app_assoc;
      first [ by eexists [_]; split; [done|]; split; [right; by eexists | by eexists]
            | exists []; rewrite app_nil_r; split; [done|]; split; [by left | done] ].
  - intros labels E Hne. unfold prompt. rewrite E.
    destruct labels as [|x rest]; [done|].
    exists "You are a helpful medical information AI. ",
      (" " +:+ instruction +:+ nl +:+ nl +:+
       "User's Question: '" +:+ user_question +:+ "'").
    unfold build_prompt, prompt_context_of. cbv zeta.
    by rewrite !append_assoc.
  - intros H. assert (prompt_context_of (read s) = general_context) as E.
    { destruct H as [->|[->|H]]; [done|done|]. unfold read. by rewrite H. }
    unfold prompt, build_prompt. rewrite E.
    by exists "You are a helpful medical information AI. ",
      (" " +:+ instruction +:+ nl +:+ nl +:+
       "User's Question: '" +:+ user_question +:+ "'").
  - unfold prompt, build_prompt. cbv zeta.
    exists ("You are a helpful medical information AI. " +:+
            prompt_context_of (read s) +:+ " "),
      (nl +:+ nl +:+ "User's Question: '" +:+ user_question +:+ "'").
    by rewrite !append_assoc.
  - unfold prompt, build_prompt. cbv zeta.
    exists ("You are a helpful medical information AI. " +:+
            prompt_context_of (read s) +:+ " " +:+ instruction +:+ nl +:+ nl),
      EmptyString.
    by rewrite !append_assoc, append_nil_r.
Qed.

Lemma meningioma_prompt :
  read meningioma_chat = PyList ["Meningioma Tumor"] ∧
  ["Meningioma Tumor"] ≠ [] ∧
  contains (build_prompt (read meningioma_chat) "is this dangerous?")
    ("A user's brain scan analysis has indicated a potential '" +:+
     join ", " ["Meningioma Tumor"] +:+
     "'. The user is now asking a follow-up question.") ∧
  join ", " ["Meningioma Tumor"] = "Meningioma Tumor" ∧
  join ", " ["Glioma Tumor"; "Pituitary Tumor"] = "Glioma Tumor, Pituitary Tumor".
Proof.
  assert (read meningioma_chat = PyList ["Meningioma Tumor"]) as E by reflexivity.
  assert (["Meningioma Tumor"] ≠ @nil string) as Hne by discriminate.
  destruct (prompt_carries_last_findings meningioma_chat "is this dangerous?"
              (reliable gemini_down))
    as (_ & Hp & _).
  split; [exact E|]. split; [exact Hne|].
  split; [exact (Hp _ E Hne)|]. split; reflexivity.
Defined.

(** ** Replies to follow-up questions *)

Lemma last_shown_snoc (ud : gmap string pyval) (tr : list effect) (text : string) :
  last_shown {| user_data := ud; trace := tr ++ [EditMessageText text] |} = Some text.
Proof. unfold last_shown. cbn [trace]. by rewrite last_snoc. Qed.

(** C4, as the code has it.  Every reply the text handler gets shown ends
    with the fixed disclaimer.  Once the update carries a message and the
    notice is out: when the hosted model answers and the edit that shows
    the answer goes through, the reply is its text followed by the
    disclaimer; when the hosted call fails, or that edit is rejected, the
    error is caught and the fallback sentence followed by the disclaimer is
    shown instead; only when the fallback cannot be shown either does the
    handler raise, with no reply shown.  Without a message, or when the
    notice cannot be sent, the handler raises before the hosted model is
    asked. *)
Theorem reply_ends_with_disclaimer
    (s : session) (user_question : string) (t : text_world) :
  let prompt := build_prompt (read s) user_question in
  let after := handle_text user_question t s in
  (∃ added, trace (snd after) = trace s ++ added ∧
     ∀ reply, EditMessageText reply ∈ added → ends_with reply disclaimer) ∧
  (text_present t = true → notice_sent t = true →
     (∀ text, hosted_model t prompt = Some text → answer_shown t = true →
        fst after = Returned tt ∧
        last_shown (snd after) = Some (text +:+ disclaimer)) ∧
     (hosted_model t prompt = None ∨ answer_shown t = false →
        fallback_shown t = true →
        fst after = Returned tt ∧
        last_shown (snd after) =
          Some ("I'm having trouble accessing my knowledge base right now. Please try again later." +:+ disclaimer)) ∧
     (hosted_model t prompt = None ∨ answer_shown t = false →
        fallback_shown t = false →
        fst after = Raised ∧
        trace (snd after) =
          trace s ++ [SendMessage thinking_text; GenerateContent prompt])) ∧
  (text_present t = false ∨ notice_sent t = false → after = (Raised, s)) ∧
  disclaimer =
    nl +:+ nl +:+ "**Important Disclaimer:** I am an AI assistant, not a medical professional. This information is for educational purposes only. Please consult a qualified doctor for diagnosis and medical advice.".
Proof.
  intros prompt after. unfold after. rewrite handle_text_spec. fold prompt.
  split; [|split; [|split; [|done]]].
  - unfold fall_back, asked. fold prompt.
    destruct (text_present t && notice_sent t);
      [|exists []; rewrite app_nil_r; split; [done | by intros ? ?%not_elem_of_nil]].
    destruct (hosted_model t prompt) as [response|], (answer_shown t),
      (fallback_shown t); cbn [snd trace]; rewrite <- ?app_assoc;
      (eexists; split; [reflexivity|]); intros reply Hin;
      repeat (apply elem_of_cons in Hin as [Hin|Hin]; [try done|]);
      try (by apply not_elem_of_nil in Hin);
      injection Hin as ->; by eexists.
  - intros -> ->. cbn [andb]. unfold fall_back, asked. fold prompt.
    split; [|split].
    + intros text -> ->. cbn [fst snd]. split; [done|]. apply last_shown_snoc.
    + intros Hcase ->.
      destruct (hosted_model t prompt) as [response|], (answer_shown t);
        try (by destruct Hcase); cbn [fst snd]; (split; [done|]);
        apply last_shown_snoc.
    + intros Hcase ->.
      by destruct (hosted_model t prompt) as [response|], (answer_shown t);
        try (by destruct Hcase).
  - intros [-> | ->]; [done|]. by rewrite andb_false_r.
Qed.

Lemma reliable_answer_is_shown :
  text_present (reliable (gemini_fixed "Often benign.")) = true ∧
  notice_sent (reliable (gemini_fixed "Often benign.")) = true ∧
  last_shown (snd (handle_text "is this dangerous?"
                     (reliable (gemini_fixed "Often benign.")) meningioma_chat)) =
    Some ("Often benign." +:+ disclaimer).
Proof.
  destruct (reply_ends_with_disclaimer meningioma_chat "is this dangerous?"
              (reliable (gemini_fixed "Often benign."))) as (_ & H & _).
  destruct (H eq_refl eq_refl) as (Hok & _).
  split; [reflexivity|]. split; [reflexivity|].
  exact (proj2 (Hok "Often benign." eq_refl eq_refl)).
Defined.

(** C4, as stated, fails: the hosted model answers, the transport rejects
    the edit that would show the answer, the error is caught by the same
    [except] and the user is shown the fallback instead of the answer.  And
    when the hosted model is down and the fallback cannot be shown either,
    the handler raises. *)
Lemma rejected_answer_shows_fallback :
  hosted_model rejected_answer (build_prompt (read meningioma_chat) "is this dangerous?") =
    Some "It is *usually benign." ∧
  fst (handle_text "is this dangerous?" rejected_answer meningioma_chat) = Returned tt ∧
  last_shown (snd (handle_text "is this dangerous?" rejected_answer meningioma_chat)) =
    Some (fallback_text +:+ disclaimer) ∧
  last_shown (snd (handle_text "is this dangerous?" rejected_answer meningioma_chat)) ≠
    Some ("It is *usually benign." +:+ disclaimer) ∧
  fst (handle_text "is this dangerous?" dead_line meningioma_chat) = Raised.
Proof.
  split; [reflexivity|]. split; [reflexivity|]. split; [reflexivity|].
  split; [|reflexivity].
  intros E. vm_compute in E. discriminate E.
Qed.

(** ** Errors while a photo is processed *)

Lemma handle_image_not_analysed (w : scan_world) (s : session) :
  message_present w = true →
  analysed w = None →
  handle_image w s =
    retry w {| user_data := user_data s;
               trace := trace s ++
                        (if ack_sent w then [SendMessage ack_text] else []) |}.
Proof.
  intros Hp H. rewrite handle_image_present by done. unfold try_except.
  rewrite image_body_not_analysed by done.
  unfold retry, deliver, emit, raise. by destruct (retry_sent w).
Qed.

Lemma handle_image_analysed (w : scan_world) (boxes : list box) (s : session) :
  analysed w = Some boxes →
  ∃ bio, annotated w = Some bio ∧
    handle_image w s =
      if photo_sent w then
        (Returned tt,
         {| user_data := <[LAST := recorded boxes]> (user_data s);
            trace := trace s ++ [SendMessage ack_text;
                                 ReplyPhoto bio (caption_of (interpret boxes))] |})
      else
        retry w {| user_data := <[LAST := recorded boxes]> (user_data s);
                   trace := trace s ++ [SendMessage ack_text] |}.
Proof.
  intros H. destruct (analysed_present w boxes H) as [Hp _].
  rewrite handle_image_present by done. unfold try_except.
  destruct (image_body_analysed w boxes s H) as (bio & Hbio & ->).
  exists bio. split; [done|].
  destruct (photo_sent w); [done|].
  unfold retry, deliver, emit, raise.
  destruct (retry_sent w); cbn [user_data trace]; by rewrite ?app_nil_r.
Qed.

(** The memory after a photo, whatever became of the replies. *)
Lemma handle_image_user_data (w : scan_world) (s : session) :
  user_data (snd (handle_image w s)) =
    match analysed w with
    | Some boxes => <[LAST := recorded boxes]> (user_data s)
    | None => user_data s
    end.
Proof.
  destruct (analysed w) as [boxes|] eqn:Ha.
  - destruct (handle_image_analysed w boxes s Ha) as (bio & _ & ->).
    unfold retry. by destruct (photo_sent w), (retry_sent w).
  - destruct (message_present w) eqn:Hp.
    + rewrite handle_image_not_analysed by done. unfold retry.
      by destruct (retry_sent w).
    + by rewrite handle_image_absent.
Qed.

Lemma last_shown_retry (ud : gmap string pyval) (tr : list effect) :
  last_shown {| user_data := ud; trace := tr ++ [ReplyText retry_text] |} =
    Some retry_text.
Proof. unfold last_shown. cbn [trace]. by rewrite last_snoc. Qed.

(** C6, as the code has it.  Whenever a step inside the [try] of the photo
    handler raises, the error is caught and the retry message is sent: when
    that goes through, the user is shown it and the handler returns; when
    it does not, the handler raises and the user has at most the
    acknowledgement.  If the step that raised comes before the
    interpretation of the detections (sending the acknowledgement,
    downloading, opening, inference, rendering), the memory is what it was;
    if it is the sending of the annotated photo, the memory slot already
    holds what the new analysis recorded.  An update without a message
    raises at line 82, before the [try]: nothing is caught, sent or
    changed. *)
Theorem image_error_is_caught (w : scan_world) (s : session) :
  (message_present w = true →
   fst (image_body w s) = Raised →
   (retry_sent w = true →
      fst (handle_image w s) = Returned tt ∧
      last_shown (snd (handle_image w s)) = Some retry_text) ∧
   (retry_sent w = false →
      fst (handle_image w s) = Raised ∧
      trace (snd (handle_image w s)) =
        trace s ++ (if ack_sent w then [SendMessage ack_text] else [])) ∧
   (analysed w = None → user_data (snd (handle_image w s)) = user_data s) ∧
   (∀ boxes, analysed w = Some boxes →
      photo_sent w = false ∧
      user_data (snd (handle_image w s)) = <[LAST := recorded boxes]> (user_data s))) ∧
  (message_present w = false → handle_image w s = (Raised, s)).
Proof.
  split; [|apply handle_image_absent].
  intros Hp Hraised. destruct (analysed w) as [boxes|] eqn:Ha.
  - destruct (image_body_analysed w boxes s Ha) as (bio & _ & Eb).
    rewrite Eb in Hraised. cbn [fst] in Hraised.
    destruct (photo_sent w) eqn:Hsent; [done|].
    destruct (analysed_present w boxes Ha) as [_ Hack].
    destruct (handle_image_analysed w boxes s Ha) as (bio' & _ & ->).
    rewrite Hsent, Hack. unfold retry.
    split; [intros ->; split; [done | apply last_shown_retry]|].
    split; [by intros ->|]. split; [done|].
    intros ? [= <-]. split; [done|]. by destruct (retry_sent w).
  - rewrite handle_image_not_analysed by done. unfold retry.
    split; [intros ->; split; [done | apply last_shown_retry]|].
    split; [by intros ->|]. split; [|done].
    intros _. by destruct (retry_sent w).
Qed.

Lemma unreadable_photo_keeps_memory :
  message_present unreadable_photo = true ∧
  fst (image_body unreadable_photo meningioma_chat) = Raised ∧
  fst (handle_image unreadable_photo meningioma_chat) = Returned tt ∧
  last_shown (snd (handle_image unreadable_photo meningioma_chat)) = Some retry_text ∧
  user_data (snd (handle_image unreadable_photo meningioma_chat)) =
    user_data meningioma_chat ∧
  fst (handle_image unreadable_unanswered meningioma_chat) = Raised.
Proof.
  assert (message_present unreadable_photo = true) as Hp by reflexivity.
  assert (fst (image_body unreadable_photo meningioma_chat) = Raised) as H
    by reflexivity.
  destruct (image_error_is_caught unreadable_photo meningioma_chat) as [Hcaught _].
  destruct (Hcaught Hp H) as (Hsent & _ & Hkeep & _).
  destruct (Hsent eq_refl) as [Hr Hs].
  destruct (image_error_is_caught unreadable_unanswered meningioma_chat) as [Hlost _].
  destruct (Hlost eq_refl eq_refl) as (_ & Hraise & _).
  split; [exact Hp|]. split; [exact H|]. split; [exact Hr|]. split; [exact Hs|].
  split; [apply Hkeep; reflexivity | exact (proj1 (Hraise eq_refl))].
Defined.

(** C6, as stated, fails: the annotated photo of a glioma scan cannot be
    sent, the error is caught and the retry message shown, yet the chat that
    remembered a meningioma now remembers a glioma. *)
Lemma lost_reply_changes_memory :
  fst (image_body lost_reply meningioma_chat) = Raised ∧
  fst (handle_image lost_reply meningioma_chat) = Returned tt ∧
  last_shown (snd (handle_image lost_reply meningioma_chat)) = Some retry_text ∧
  read meningioma_chat = PyList ["Meningioma Tumor"] ∧
  read (snd (handle_image lost_reply meningioma_chat)) = PyList ["Glioma Tumor"] ∧
  user_data (snd (handle_image lost_reply meningioma_chat)) ≠
    user_data meningioma_chat.
Proof.
  repeat split; try reflexivity.
  intros E.
  assert (read (snd (handle_image lost_reply meningioma_chat)) = read meningioma_chat)
    as R by (unfold read; by rewrite E).
  discriminate R.
Qed.

(** ** The memory slot along a chat *)



(** What is recorded is nothing, or the non-empty list of distinct names. *)
Lemma recorded_cases (boxes : list box) :
  (recorded boxes = PyNone ∧ detected_tumor_names_for_chatbot (interpret boxes) = []) ∨
  (recorded boxes = PyList (detected_tumor_names_for_chatbot (interpret boxes)) ∧
   detected_tumor_names_for_chatbot (interpret boxes) ≠ []).
Proof.
  unfold recorded.
  destruct (detected_tumors (interpret boxes)) as [|f fs] eqn:E.
  - left. split; [done|]. by apply interpret_empty_together.
  - right. split; [done|]. intros N. apply interpret_empty_together in N. congruence.
Qed.



(** * Further properties of app.py *)

(** ** Every photo gets one final reply *)

(** X1. After the acknowledgement the photo handler hands the transport
    at most one more message: the annotated photo with the caption of the
    interpretation when every step succeeded, otherwise the retry text,
    when that can be sent.  It returns normally exactly when that last
    message went through; it raises when the update carries no message
    (nothing is sent then) and when the retry text cannot be sent. *)
Theorem photo_gets_one_final_reply (w : scan_world) (s : session) :
  (fst (handle_image w s) = Returned tt ↔
     message_present w = true ∧
     ((∃ boxes, analysed w = Some boxes ∧ photo_sent w = true) ∨
      retry_sent w = true)) ∧
  trace (snd (handle_image w s)) =
    trace s ++
    (if message_present w && ack_sent w then [SendMessage ack_text] else []) ++
    match message_present w, analysed w, annotated w with
    | true, Some boxes, Some bio =>
        if photo_sent w then [ReplyPhoto bio (caption_of (interpret boxes))]
        else if retry_sent w then [ReplyText retry_text] else []
    | true, _, _ => if retry_sent w then [ReplyText retry_text] else []
    | false, _, _ => []
    end.
Proof.
  destruct (message_present w) eqn:Hp.
  2:{ rewrite handle_image_absent by done. cbn [fst snd andb].
      rewrite !app_nil_r. split; [|done]. split; [done | by intros [? _]]. }
  destruct (analysed w) as [boxes|] eqn:Ha.
  - destruct (analysed_present w boxes Ha) as [_ Hack].
    destruct (handle_image_analysed w boxes s Ha) as (bio & -> & ->).
    rewrite Hack. unfold retry. cbn [andb].
    destruct (photo_sent w) eqn:Hs, (retry_sent w) eqn:Hr; cbn [fst snd trace];
      rewrite <- ?app_assoc, ?app_nil_r; (split; [|done]); split.
    + intros _. split; [done|]. left. by exists boxes.
    + done.
    + intros _. split; [done|]. left. by exists boxes.
    + done.
    + intros _. split; [done|]. by right.
    + done.
    + done.
    + by intros [_ [(? & _ & ?)|?]].
  - rewrite handle_image_not_analysed by done. unfold retry. cbn [andb].
    destruct (retry_sent w) eqn:Hr; cbn [fst snd trace];
      rewrite <- ?app_assoc, ?app_nil_r; (split; [|done]); split.
    + intros _. split; [done|]. by right.
    + done.
    + done.
    + by intros [_ [(? & ? & _)|?]].
Qed.

(** ** The findings shown and the names remembered go together *)

Lemma entry_known (class_id : Z) :
  (class_id = 0 ∧ entry_of class_id = "Glioma Tumor (High Severity)") ∨
  (class_id = 1 ∧ entry_of class_id = "Meningioma Tumor (Low Severity)") ∨
  (class_id = 2 ∧ entry_of class_id = "No-Tumor (Unknown Severity)") ∨
  (class_id = 3 ∧ entry_of class_id = "Pituitary Tumor (Medium Severity)") ∨
  (CLASS_NAMES !! class_id = None ∧
   class_name_of class_id = "Unknown Type" ∧
   entry_of class_id = "Unknown Type (Unknown Severity)").
Proof.
  destruct (class_name_known class_id)
    as [[-> _]|[[-> _]|[[-> _]|[[-> _]|[Hnone Hname]]]]];
    [by left | by right; left | by right; right; left
    | by right; right; right; left |].
  repeat right. split; [done|]. split; [done|].
  unfold entry_of, severity_of. by rewrite Hname, (severity_unknown _ Hnone).
Qed.

(** Two classes have the same name exactly when they have the same entry. *)
Lemma name_entry_iff (i j : Z) :
  class_name_of i = class_name_of j ↔ entry_of i = entry_of j.
Proof.
  destruct (entry_known i) as [[-> Ei]|[[-> Ei]|[[-> Ei]|[[-> Ei]|(_ & Ni & Ei)]]]];
  destruct (entry_known j) as [[-> Ej]|[[-> Ej]|[[-> Ej]|[[-> Ej]|(_ & Nj & Ej)]]]];
    rewrite ?Ei, ?Ej, ?Ni, ?Nj; split; intros H; try done; try by vm_compute in H.
Qed.

Lemma unseen_same_keys {A K1 K2} `{EqDecision K1, EqDecision K2}
    (f : A → K1) (g : A → K2) (l kept : list A) :
  (∀ x y, f x = f y ↔ g x = g y) →
  unseen f (f <$> kept) l = unseen g (g <$> kept) l.
Proof.
  intros Hfg. revert kept. induction l as [|x l IH]; intros kept; [done|].
  cbn [unseen].
  rewrite (bool_decide_ext (f x ∈ f <$> kept) (g x ∈ g <$> kept)).
  2:{ rewrite !list_elem_of_fmap.
      split; intros (y & E & Hy); exists y; (split; [|done]); by apply Hfg. }
  case_bool_decide; [apply IH|]. f_equal. apply (IH (x :: kept)).
Qed.

(** What is kept was there. *)
Lemma unseen_elem {A K} `{EqDecision K} (key : A → K) (l : list A)
    (seen : list K) (x : A) :
  x ∈ unseen key seen l → x ∈ l.
Proof.
  revert seen. induction l as [|y l IH]; intros seen; cbn [unseen]; [done|].
  case_bool_decide.
  - intros Hx. right. by eapply IH.
  - intros [->|Hx]%elem_of_cons; [left | right; by eapply IH].
Qed.

Lemma names_by_ids (boxes : list box) :
  detected_tumor_names_for_chatbot (interpret boxes) =
    class_name_of <$> finding_ids boxes.
Proof.
  rewrite interpret_spec. cbn [detected_tumor_names_for_chatbot].
  by rewrite fromkeys_unseen, unseen_fmap.
Qed.

Lemma findings_by_ids (boxes : list box) :
  detected_tumors (interpret boxes) = entry_of <$> finding_ids boxes.
Proof.
  rewrite interpret_spec. cbn [detected_tumors].
  rewrite fromkeys_unseen, unseen_fmap. f_equal.
  symmetry. apply (unseen_same_keys class_name_of entry_of _ []), name_entry_iff.
Qed.

(** X2. The findings listed in the caption and the names kept for the
    follow-up chat come from one and the same list of class ids, without
    class 2 and each detected in the scan: position by position, the k-th
    finding is the k-th name with its severity. *)
Theorem findings_match_names (boxes : list box) :
  ∃ ids : list Z,
    detected_tumors (interpret boxes) =
      (λ i, finding_text (class_name_of i) (severity_of i)) <$> ids ∧
    detected_tumor_names_for_chatbot (interpret boxes) = class_name_of <$> ids ∧
    (∀ i, i ∈ ids → i ≠ 2 ∧ ∃ b, b ∈ boxes ∧ cls b = i) ∧
    length (detected_tumors (interpret boxes)) =
      length (detected_tumor_names_for_chatbot (interpret boxes)).
Proof.
  exists (finding_ids boxes).
  split; [apply findings_by_ids|]. split; [apply names_by_ids|]. split.
  - intros i Hi%unseen_elem.
    apply list_elem_of_filter in Hi as [G (b & -> & Hb)%list_elem_of_fmap].
    split; [by apply genuine_iff | by exists b].
  - by rewrite findings_by_ids, names_by_ids, !length_fmap.
Qed.

Lemma unseen_sublist {A K} `{EqDecision K} (key : A → K) (l : list A)
    (seen : list K) :
  unseen key seen l `sublist_of` l.
Proof.
  revert seen. induction l as [|x l IH]; intros seen; cbn [unseen]; [done|].
  case_bool_decide; [apply sublist_cons | apply sublist_skip]; apply IH.
Qed.

(** X16. Findings are listed in the order in which their classes were
    first detected: the class ids behind them are picked from the detected
    ids from left to right, and when the first box is not a no-tumour box
    its class is the first finding and the first name remembered. *)
Theorem findings_follow_detection_order (boxes : list box) :
  finding_ids boxes `sublist_of` (cls <$> boxes) ∧
  detected_tumors (interpret boxes) =
    (λ i, finding_text (class_name_of i) (severity_of i)) <$> finding_ids boxes ∧
  detected_tumor_names_for_chatbot (interpret boxes) =
    class_name_of <$> finding_ids boxes ∧
  (∀ b rest, boxes = b :: rest → cls b ≠ 2 →
     head (detected_tumor_names_for_chatbot (interpret boxes)) =
       Some (class_name_of (cls b)) ∧
     head (detected_tumors (interpret boxes)) =
       Some (finding_text (class_name_of (cls b)) (severity_of (cls b)))).
Proof.
  split; [|split; [apply findings_by_ids|split; [apply names_by_ids|]]].
  - unfold finding_ids. etransitivity; [apply unseen_sublist|apply sublist_filter].
  - intros b rest -> Hb. rewrite findings_by_ids, names_by_ids.
    unfold finding_ids. rewrite fmap_cons.
    rewrite filter_cons_True by by apply genuine_iff.
    cbn [unseen]. by rewrite bool_decide_eq_false_2 by apply not_elem_of_nil.
Qed.

(** ** At most four findings *)

(** X3. However many boxes the detector returns, at most four findings
    are listed and remembered, and every remembered name is one of the
    three tumour names of the table or 'Unknown Type'. *)
Theorem at_most_four_findings (boxes : list box) :
  (length (detected_tumor_names_for_chatbot (interpret boxes)) ≤ 4)%nat ∧
  (length (detected_tumors (interpret boxes)) ≤ 4)%nat ∧
  (∀ name, name ∈ detected_tumor_names_for_chatbot (interpret boxes) →
     name ∈ ["Glioma Tumor"; "Meningioma Tumor"; "Pituitary Tumor"; "Unknown Type"]).
Proof.
  assert (∀ name, name ∈ detected_tumor_names_for_chatbot (interpret boxes) →
     name ∈ ["Glioma Tumor"; "Meningioma Tumor"; "Pituitary Tumor"; "Unknown Type"])
    as Hin.
  { intros name (b & _ & Hne & ->)%interpret_names_elem.
    destruct (class_name_known (cls b))
      as [[_ ->]|[[_ ->]|[[E _]|[[_ ->]|[_ ->]]]]]; [| |done| |].
    - left.
    - right; left.
    - right; right; left.
    - right; right; right; left. }
  assert (length (detected_tumor_names_for_chatbot (interpret boxes)) ≤ 4)%nat as Hlen.
  { change 4%nat with
      (length ["Glioma Tumor"; "Meningioma Tumor"; "Pituitary Tumor"; "Unknown Type"]).
    apply submseteq_length, NoDup_submseteq; [|exact Hin].
    unfold interpret. apply fromkeys_NoDup. }
  split; [exact Hlen|]. split; [|exact Hin].
  rewrite findings_by_ids, length_fmap.
  by rewrite names_by_ids, length_fmap in Hlen.
Qed.

(** ** The caption is short *)

Lemma length_append (a b : string) :
  String.length (a +:+ b) = (String.length a + String.length b)%nat.
Proof.
  induction a as [|ch a IH]; [done|].
  change (S (String.length (a +:+ b)) = S (String.length a + String.length b)).
  by rewrite IH.
Qed.

Lemma length_join (sep : string) (parts : list string) :
  (String.length (join sep parts) ≤
   sum_list_with (λ part, String.length part + String.length sep) parts)%nat.
Proof.
  unfold join. induction parts as [|x [|y parts] IH]; [done| |].
  - cbn [String.concat sum_list_with]. lia.
  - change (String.concat sep (x :: y :: parts))
      with (x +:+ sep +:+ String.concat sep (y :: parts)).
    rewrite !length_append.
    cbn [sum_list_with] in IH |- *. lia.
Qed.

Lemma sum_list_with_submseteq {A} (f : A → nat) (l k : list A) :
  l ⊆+ k → (sum_list_with f l ≤ sum_list_with f k)%nat.
Proof.
  intros (k' & ->)%submseteq_Permutation. rewrite sum_list_with_app. lia.
Qed.

Lemma findings_among_entries (boxes : list box) (finding : string) :
  finding ∈ detected_tumors (interpret boxes) → finding ∈ all_entries.
Proof.
  rewrite findings_by_ids. intros (i & -> & Hi%unseen_elem)%list_elem_of_fmap.
  apply list_elem_of_filter in Hi as [G _]. apply genuine_iff in G.
  destruct (entry_known i) as [[_ ->]|[[_ ->]|[[E _]|[[_ ->]|(_ & _ & ->)]]]];
    [| |done| |]; unfold all_entries.
  - left.
  - right; left.
  - right; right; left.
  - right; right; right; left.
Qed.

Lemma bullets_sum (findings : list string) :
  sum_list_with (λ part, String.length part + String.length nl)%nat
    ((λ finding, bullet +:+ " " +:+ finding) <$> findings) =
  sum_list_with (λ finding, String.length finding + 9)%nat findings.
Proof.
  induction findings as [|f fs IH]; [done|].
  rewrite fmap_cons. cbn [sum_list_with]. rewrite IH, !length_append.
  change (String.length bullet) with 7%nat. change (String.length " ") with 1%nat.
  change (String.length nl) with 1%nat. lia.
Qed.

(** X4. Whatever the detector returns, the caption sent with the annotated
    photo is at most 255 bytes long. *)
Theorem caption_is_short (boxes : list box) :
  (String.length (caption_of (interpret boxes)) ≤ 255)%nat.
Proof.
  unfold caption_of.
  destruct (detected_tumors (interpret boxes)) as [|f fs] eqn:E.
  { destruct (no_tumor_case_detected (interpret boxes)); vm_compute; lia. }
  rewrite <- E. clear f fs E.
  assert (detected_tumors (interpret boxes) ⊆+ all_entries) as Hsub.
  { apply NoDup_submseteq; [|apply findings_among_entries].
    unfold interpret. apply fromkeys_NoDup. }
  unfold findings_caption. cbv zeta. rewrite !length_append.
  pose proof (length_join nl
    ((λ finding, bullet +:+ " " +:+ finding) <$> detected_tumors (interpret boxes)))
    as Hj.
  rewrite bullets_sum in Hj.
  pose proof (sum_list_with_submseteq (λ finding, String.length finding + 9)%nat
                _ _ Hsub) as Hle.
  change (sum_list_with (λ finding, String.length finding + 9)%nat all_entries)
    with 159%nat in Hle.
  change (String.length "**Analysis Complete.**") with 22%nat.
  change (String.length "Potential findings:") with 19%nat.
  change (String.length "You can now ask me questions for more information.")
    with 50%nat.
  change (String.length nl) with 1%nat.
  change (map (λ finding, bullet +:+ " " +:+ finding) (detected_tumors (interpret boxes)))
    with ((λ finding, bullet +:+ " " +:+ finding) <$> detected_tumors (interpret boxes)).
  unfold join in *. lia.
Qed.

(** ** The handler table *)

Lemma process_update_spec (m : message) :
  process_update m =
    match m with
    | CommandMessage command for_this_bot first_name c =>
        if for_this_bot && String.eqb (lower command) "start" then start first_name c
        else if for_this_bot && String.eqb (lower command) "help" then help_command c
        else mret tt
    | TextMessage text t => handle_text text t
    | PhotoMessage w => handle_image w
    | OtherMessage => mret tt
    end.
Proof.
  destruct m as [command for_this_bot first_name c|text t|w|]; try done.
  unfold process_update, handlers. cbn [find accepts fst].
  destruct (for_this_bot && String.eqb (lower command) "start"); [done|].
  by destruct (for_this_bot && String.eqb (lower command) "help").
Qed.

Lemma generations_app (tr tr' : list effect) :
  generations (tr ++ tr') = (generations tr + generations tr')%nat.
Proof. unfold generations. by rewrite List.filter_app, length_app. Qed.

(** A reply sent through [update.message], as the command handlers do. *)
Lemma reply_effect (c : command_world) (text : string) (s : session) :
  (attempt (command_present c);; deliver (reply_sent c) (ReplyText text)) s =
    if command_present c && reply_sent c then
      (Returned tt,
       {| user_data := user_data s; trace := trace s ++ [ReplyText text] |})
    else (Raised, s).
Proof.
  unfold mbind, M_bind, attempt, deliver, emit, raise, mret, M_ret.
  by destruct (command_present c), (reply_sent c).
Qed.

Lemma handle_text_generations (q : string) (t : text_world) (s : session) :
  generations (trace (snd (handle_text q t s))) =
    (generations (trace s) + if text_present t && notice_sent t then 1 else 0)%nat.
Proof.
  rewrite handle_text_spec. unfold fall_back, asked.
  destruct (text_present t && notice_sent t); [|cbn [snd]; lia].
  destruct (hosted_model t _), (answer_shown t), (fallback_shown t);
    cbn [snd trace]; rewrite ?generations_app; cbn; lia.
Qed.

Lemma handle_image_generations (w : scan_world) (s : session) :
  generations (trace (snd (handle_image w s))) = generations (trace s).
Proof.
  destruct (message_present w) eqn:Hp; [|by rewrite handle_image_absent].
  destruct (analysed w) as [boxes|] eqn:Ha.
  - destruct (handle_image_analysed w boxes s Ha) as (bio & _ & ->).
    unfold retry. destruct (photo_sent w), (retry_sent w);
      cbn [snd trace]; rewrite ?generations_app; cbn; lia.
  - rewrite handle_image_not_analysed by done. unfold retry.
    destruct (retry_sent w), (ack_sent w);
      cbn [snd trace]; rewrite ?generations_app; cbn; lia.
Qed.

(** What one message does to the memory and to the trace. *)
Lemma process_update_effect (m : message) (s : session) :
  (∀ k, k ≠ LAST →
     user_data (snd (process_update m s)) !! k = user_data s !! k) ∧
  generations (trace (snd (process_update m s))) =
    (generations (trace s) + if reaches_model m then 1 else 0)%nat.
Proof.
  rewrite process_update_spec.
  destruct m as [command for_this_bot first_name c|text t|w|].
  - assert (∀ text,
        let r := (attempt (command_present c);;
                  deliver (reply_sent c) (ReplyText text)) s in
        (∀ k, k ≠ LAST → user_data (snd r) !! k = user_data s !! k) ∧
        generations (trace (snd r)) = (generations (trace s) + 0)%nat) as Hreply.
    { intros text r. unfold r. rewrite reply_effect.
      destruct (command_present c && reply_sent c); cbn [snd user_data trace];
        rewrite ?generations_app; (split; [done|]); cbn; lia. }
    cbn [reaches_model].
    destruct (for_this_bot && String.eqb (lower command) "start");
      [apply Hreply|].
    destruct (for_this_bot && String.eqb (lower command) "help");
      [apply Hreply|].
    cbn. split; [done | lia].
  - rewrite handle_text_user_data, handle_text_generations. by cbn [reaches_model].
  - rewrite handle_image_user_data, handle_image_generations. cbn [reaches_model].
    split; [|lia]. intros k Hk. destruct (analysed w); [|done].
    by rewrite lookup_insert_ne.
  - cbn. split; [done | lia].
Qed.

(** X5. Along any sequence of messages, whatever their kind, the handlers
    write no key of [user_data] other than ['last_detected_tumors']. *)
Theorem only_last_slot_is_written (messages : list message) (s : session) (k : string) :
  k ≠ LAST →
  user_data (serve messages s) !! k = user_data s !! k.
Proof.
  intros Hk. revert s. induction messages as [|m messages IH]; intros s; [done|].
  change (serve (m :: messages) s) with (serve messages (snd (process_update m s))).
  rewrite IH. by apply process_update_effect.
Qed.

Lemma theme_survives_a_scan :
  "theme" ≠ LAST ∧
  user_data (serve [PhotoMessage (smooth mixed_scan []);
                    TextMessage "is this dangerous?" (reliable gemini_down);
                    CommandMessage "start" true "Ada" answered] themed_chat) !! "theme" =
    Some (PyList ["dark"]).
Proof.
  assert ("theme" ≠ LAST) as H by done.
  split; [exact H|].
  rewrite (only_last_slot_is_written _ themed_chat "theme" H). reflexivity.
Defined.

(** X6. The hosted model is called at most once for a message: exactly
    once for every text message that is not a command, whose update
    carries a message and whose notice could be sent, and never for a
    photo, a command, anything else, or a text message whose handling
    raised before the [try]. *)
Theorem at_most_one_generation_per_question (messages : list message) (s : session) :
  generations (trace (serve messages s)) =
    (generations (trace s) + length (List.filter reaches_model messages))%nat ∧
  (length (List.filter reaches_model messages) ≤
   length (List.filter is_text_message messages))%nat.
Proof.
  split.
  - revert s. induction messages as [|m messages IH]; intros s.
    + cbn. lia.
    + change (serve (m :: messages) s)
        with (serve messages (snd (process_update m s))).
      rewrite IH. destruct (process_update_effect m s) as (_ & ->).
      cbn [List.filter]. destruct (reaches_model m); cbn [length]; lia.
  - induction messages as [|m messages IH]; [done|].
    cbn [List.filter].
    destruct m as [command for_this_bot first_name c|text t|w|];
      cbn [reaches_model is_text_message]; try lia.
    destruct (text_present t && notice_sent t); cbn [length]; lia.
Qed.

(** X8. A bot command never touches the memory and is never passed on to
    the hosted model.  A command meant for this bot whose name, letter case
    aside, is [start] is answered with the greeting that names the user,
    one whose name is [help] with the instructions, when the update carries
    a message and the reply goes through; when it does not, the handler
    raises and nothing is sent.  Any other command, and a command meant for
    another bot, gets no answer.  No message is accepted by more than one
    of the registered handlers. *)
Theorem commands_stay_local
    (command first_name : string) (for_this_bot : bool) (c : command_world)
    (s : session) :
  let after := process_update (CommandMessage command for_this_bot first_name c) s in
  let wanted := for_this_bot &&
                (String.eqb (lower command) "start" || String.eqb (lower command) "help") in
  user_data (snd after) = user_data s ∧
  generations (trace (snd after)) = generations (trace s) ∧
  trace (snd after) =
    trace s ++
    (if for_this_bot && command_present c && reply_sent c then
       if String.eqb (lower command) "start"
       then [ReplyText (welcome_message first_name)]
       else if String.eqb (lower command) "help" then [ReplyText help_text]
       else []
     else []) ∧
  (fst after = Raised ↔
     wanted = true ∧ (command_present c = false ∨ reply_sent c = false)) ∧
  accepts (OnCommand "start") (CommandMessage "START" true first_name c) = true ∧
  (∀ m, length (List.filter (λ h, accepts h.1 m) handlers) ≤ 1)%nat.
Proof.
  intros after wanted. unfold after, wanted. rewrite process_update_spec.
  split; [|split; [|split; [|split; [|split; [done|]]]]].
  - destruct for_this_bot, (String.eqb (lower command) "start"),
      (String.eqb (lower command) "help"); cbn [andb]; try done;
      unfold start, help_command; rewrite reply_effect;
      by destruct (command_present c), (reply_sent c).
  - destruct for_this_bot, (String.eqb (lower command) "start"),
      (String.eqb (lower command) "help"); cbn [andb]; try done;
      unfold start, help_command; rewrite reply_effect;
      destruct (command_present c), (reply_sent c); cbn [snd trace andb];
      rewrite ?generations_app; cbn; lia.
  - destruct for_this_bot, (String.eqb (lower command) "start"),
      (String.eqb (lower command) "help"); cbn [andb];
      unfold start, help_command; rewrite ?reply_effect;
      destruct (command_present c), (reply_sent c); cbn [snd trace andb];
      by rewrite ?app_nil_r.
  - destruct for_this_bot, (String.eqb (lower command) "start"),
      (String.eqb (lower command) "help"); cbn [andb orb];
      unfold start, help_command; rewrite ?reply_effect;
      destruct (command_present c), (reply_sent c); cbn [fst andb];
      split; try done; try (by intros [_ [?|?]]); try (by intros [? _]);
      intros _; (split; [done|]); auto.
  - intros [cmd for_me n c'|text t|w|]; cbn; try lia.
    destruct for_me; cbn [andb]; [|cbn; lia].
    destruct (String.eqb_spec (lower cmd) "start") as [->|]; [cbn; lia|].
    destruct (String.eqb (lower cmd) "help"); cbn; lia.
Qed.

(** ** A question after a photo *)

Lemma as_user_read (u v : Z) (handler : M unit) (b : bot) :
  read_user (snd (as_user u handler b)) v =
    if decide (v = u)
    then read (snd (handler {| user_data := default ∅ (users b !! u); trace := sent b |}))
    else read_user b v.
Proof.
  unfold as_user, read_user, read. cbn [snd users].
  destruct (decide (v = u)) as [->|Hne].
  - by rewrite lookup_insert_eq.
  - by rewrite lookup_insert_ne.
Qed.

(** X7. The memory is kept for each user.  A question that follows a
    photo is put to the hosted model with the memory of the user who asks:
    when that user sent the photo, what its analysis recorded (or the
    user's earlier memory when the photo failed before the interpretation);
    when another user sent the photo, what the asking user had before, the
    photo having changed nothing of it.  For the sender of the photo, a scan
    with nothing but no-tumour boxes makes the preamble the general one,
    whatever was remembered before, and a scan with a finding makes it
    quote the names of that scan, joined by a comma. *)
Theorem question_after_photo
    (b : bot) (u v : Z) (w : scan_world) (q : string) (t : text_world) :
  let b1 := snd (as_user u (handle_image w) b) in
  let remembered :=
    if decide (v = u) then
      match analysed w with Some boxes => recorded boxes | None => read_user b u end
    else read_user b v in
  read_user b1 v = remembered ∧
  (text_present t = true → notice_sent t = true →
   ∃ shown, sent (snd (as_user v (handle_text q t) b1)) =
              sent b1 ++
              [SendMessage thinking_text;
               GenerateContent (build_prompt remembered q)] ++ shown) ∧
  (∀ boxes, v = u → analysed w = Some boxes → (∀ x, x ∈ boxes → cls x = 2) →
     prompt_context_of remembered = general_context) ∧
  (∀ boxes, v = u → analysed w = Some boxes → (∃ x, x ∈ boxes ∧ cls x ≠ 2) →
     prompt_context_of remembered =
       "A user's brain scan analysis has indicated a potential '" +:+
       join ", " (detected_tumor_names_for_chatbot (interpret boxes)) +:+
       "'. " +:+ "The user is now asking a follow-up question.").
Proof.
  intros b1 remembered.
  assert (read_user b1 v = remembered) as Hread.
  { unfold b1, remembered. rewrite as_user_read.
    destruct (decide (v = u)) as [->|Hne]; [|done].
    unfold read. rewrite handle_image_user_data. cbn [user_data].
    destruct (analysed w) as [boxes|]; [|done]. by rewrite lookup_insert_eq. }
  split; [exact Hread|]. split; [|split].
  - intros Hp Hn. unfold as_user at 1. cbn [snd sent].
    rewrite handle_text_spec, Hp, Hn. cbn [andb].
    unfold fall_back, asked, read. cbn [user_data trace].
    change (default PyNone (default ∅ (users b1 !! v) !! LAST))
      with (read_user b1 v). rewrite Hread.
    destruct (hosted_model t _), (answer_shown t), (fallback_shown t);
      cbn [snd trace]; rewrite <- ?app_assoc;
      first [ by eexists [_] | exists []; by rewrite app_nil_r ].
  - intros boxes -> Ha Hall. unfold remembered.
    rewrite decide_True by done. rewrite Ha.
    destruct (recorded_cases boxes) as [[-> _]|[_ Hne]]; [done|].
    destruct (detected_tumor_names_for_chatbot (interpret boxes))
      as [|name names] eqn:E; [done|].
    assert (name ∈ detected_tumor_names_for_chatbot (interpret boxes)) as Hin
      by (rewrite E; left).
    apply interpret_names_elem in Hin as (x & Hx & Hx2 & _).
    by destruct Hx2; apply Hall.
  - intros boxes -> Ha (x & Hx & Hx2). unfold remembered.
    rewrite decide_True by done. rewrite Ha.
    assert (class_name_of (cls x) ∈ detected_tumor_names_for_chatbot (interpret boxes))
      as Hin by (apply interpret_names_elem; by exists x).
    destruct (recorded_cases boxes) as [[_ E]|[-> _]].
    + rewrite E in Hin. by apply not_elem_of_nil in Hin.
    + unfold prompt_context_of.
      by destruct (detected_tumor_names_for_chatbot (interpret boxes));
        [apply not_elem_of_nil in Hin|].
Qed.

(** A glioma photo from user 2 leaves the meningioma of user 1 in the
    prompt of user 1 and gives user 2 the glioma. *)
Lemma question_after_photo_of_another_user :
  read_user (snd (as_user 2 (handle_image (smooth mixed_scan [])) two_users)) 1 =
    PyList ["Meningioma Tumor"] ∧
  read_user (snd (as_user 2 (handle_image (smooth mixed_scan [])) two_users)) 2 =
    PyList ["Glioma Tumor"].
Proof.
  destruct (question_after_photo two_users 2 1 (smooth mixed_scan [])
              "is this dangerous?" (reliable gemini_down)) as [H1 _].
  destruct (question_after_photo two_users 2 2 (smooth mixed_scan [])
              "is this dangerous?" (reliable gemini_down)) as [H2 _].
  split; [exact H1 | exact H2].
Defined.

(** ** Start-up *)



(** * Properties of setup.py *)

Section Download.
Import SetupPy.

(** The loop appends every chunk to the file and counts its bytes. *)
Lemma receive_spec (body : list (list Byte.byte)) (n : Z) (m : machine)
    (content : list Byte.byte) :
  disk m !! file_name = Some content →
  receive file_name body n m =
    (inr (n + Z.of_nat (length (mjoin body))),
     {| disk := <[file_name := content ++ mjoin body]> (disk m);
        stdout := stdout m; requested := requested m |}).
Proof.
  revert n m content. induction body as [|data body IH]; intros n m content Hc.
  - cbn. rewrite app_nil_r, Z.add_0_r, insert_id by done. by destruct m.
  - cbn [receive]. unfold mbind, S_bind, write.
    rewrite (IH _ _ (content ++ data)).
    2:{ cbn [disk]. by rewrite lookup_alter_eq, Hc. }
    cbn [disk stdout requested mjoin list_join].
    rewrite length_app, Nat2Z.inj_add, <- app_assoc, Z.add_assoc.
    f_equal. f_equal.
    apply map_eq. intros k. destruct (decide (k = file_name)) as [->|Hk].
    + by rewrite !lookup_insert_eq.
    + by rewrite !lookup_insert_ne, lookup_alter_ne by done.
Qed.

Lemma raise_for_status_ok (r : response) (m : machine) :
  acceptable r → raise_for_status r m = (inr tt, m).
Proof.
  unfold acceptable, raise_for_status. intros H.
  destruct (400 <=? status_code r) eqn:E1, (status_code r <? 600) eqn:E2; try done.
  apply Z.leb_le in E1. apply Z.ltb_lt in E2. lia.
Qed.

Lemma raise_for_status_bad (r : response) (m : machine) :
  400 ≤ status_code r < 600 →
  raise_for_status r m = (inl (RequestException (status_error r)), m).
Proof.
  unfold raise_for_status. intros [H1 H2].
  apply Z.leb_le in H1. apply Z.ltb_lt in H2. by rewrite H1, H2.
Qed.

(** A download that gets to open the file, whatever happens afterwards. *)
Lemma download_opened (r : response) (m : machine) :
  disk m !! file_name = None →
  acceptable r → content_length r ≠ Malformed →
  download_model_weights (Answered r) true m =
    (inr tt,
     {| disk := <[file_name := mjoin (chunks r)]> (disk m);
        stdout := stdout m ++
          ["Downloading pre-trained model weights: yolov8n.pt"] ++
          match stream_error r with
          | None =>
              [verdict (declared_size (content_length r))
                 (Z.of_nat (length (mjoin (chunks r))))]
          | Some e => guidance e
          end;
        requested := requested m ++ [url] |}).
Proof.
  intros Hnone Hok Hlen.
  unfold download_model_weights, mbind, S_bind, path_exists.
  rewrite Hnone. rewrite bool_decide_eq_false_2 by (by intros [? ?]).
  unfold print at 1. cbn [disk stdout requested].
  unfold try_except_request, download_body, mbind, S_bind, get.
  rewrite raise_for_status_ok by done.
  assert (∀ m', total_size r m' = (inr (declared_size (content_length r)), m')) as ->.
  { intros m'. unfold total_size, declared_size. by destruct (content_length r). }
  unfold open_wb.
  rewrite (receive_spec _ _ _ []) by (cbn [disk]; apply lookup_insert_eq).
  cbn [disk stdout requested app]. rewrite insert_insert_eq.
  destruct (stream_error r) as [e|].
  - unfold throw, report, mbind, S_bind, print. cbn [disk stdout requested].
    unfold guidance. by rewrite <- !app_assoc.
  - unfold mret, S_ret, verdict, print.
    rewrite Z.add_0_l.
    destruct (bool_decide (declared_size (content_length r) ≠ 0) &&
              bool_decide (Z.of_nat (length (mjoin (chunks r))) ≠
                           declared_size (content_length r)));
      cbn [disk stdout requested]; by rewrite <- !app_assoc.
Qed.

(** A download that fails before the file is opened. *)
Lemma download_refused (net : network) (writable : bool) (m : machine) (e : string) :
  disk m !! file_name = None →
  (net = Unreachable e ∨
   ∃ r, net = Answered r ∧ 400 ≤ status_code r < 600 ∧ e = status_error r) →
  download_model_weights net writable m =
    (inr tt,
     {| disk := disk m;
        stdout := stdout m ++
          ["Downloading pre-trained model weights: yolov8n.pt"] ++ guidance e;
        requested := requested m ++ [url] |}).
Proof.
  intros Hnone Hnet.
  unfold download_model_weights, mbind, S_bind, path_exists.
  rewrite Hnone. rewrite bool_decide_eq_false_2 by (by intros [? ?]).
  unfold print at 1. cbn [disk stdout requested].
  unfold try_except_request, download_body, mbind, S_bind, get.
  destruct Hnet as [->|(r & -> & Hbad & ->)].
  - unfold report, mbind, S_bind, print, guidance. cbn [disk stdout requested].
    by rewrite <- !app_assoc.
  - rewrite raise_for_status_bad by done.
    unfold report, mbind, S_bind, print, guidance. cbn [disk stdout requested].
    by rewrite <- !app_assoc.
Qed.

(** A run that finds the file. *)
Lemma download_skipped
    (net : network) (writable : bool) (m : machine) (content : list Byte.byte) :
  disk m !! file_name = Some content →
  download_model_weights net writable m =
    (inr tt,
     {| disk := disk m;
        stdout := stdout m ++ ["'yolov8n.pt' already exists. Skipping download."];
        requested := requested m |}).
Proof.
  intros Hc. unfold download_model_weights, mbind, S_bind, path_exists.
  rewrite Hc. by rewrite bool_decide_eq_true_2 by by eexists.
Qed.

(** X10. When [yolov8n.pt] is already there, whatever it holds, the script
    makes no request and leaves the disk as it is; it only prints that the
    download is skipped. *)
Theorem existing_weights_are_kept
    (net : network) (writable : bool) (m : machine) :
  is_Some (disk m !! file_name) →
  let after := download_model_weights net writable m in
  fst after = inr tt ∧
  disk (snd after) = disk m ∧
  requested (snd after) = requested m ∧
  stdout (snd after) = stdout m ++ ["'yolov8n.pt' already exists. Skipping download."].
Proof.
  intros [content Hc] after. unfold after.
  by rewrite (download_skipped net writable m content Hc).
Qed.

Lemma provisioned_machine_is_left_alone :
  is_Some (disk provisioned_machine !! file_name) ∧
  disk (snd (download_model_weights (Answered short_answer) true provisioned_machine)) =
    disk provisioned_machine ∧
  requested (snd (download_model_weights (Answered short_answer) true provisioned_machine)) = [].
Proof.
  assert (is_Some (disk provisioned_machine !! file_name)) as H by by eexists.
  destruct (existing_weights_are_kept (Answered short_answer) true _ H)
    as (_ & Hd & Hr & _).
  split; [exact H|]. split; [exact Hd | exact Hr].
Defined.

(** X11. When the file is missing, the server answers with an acceptable
    status and a length header that is absent or a number, the file can be
    written and the stream does not break, the file ends up holding the
    chunks in the order received, one request was made, and success is
    reported exactly when no length was announced (or 0) or the number of
    bytes received equals it; otherwise the error line is printed, and the
    file is there all the same. *)
Theorem completed_download (r : response) (m : machine) :
  disk m !! file_name = None →
  acceptable r → content_length r ≠ Malformed → stream_error r = None →
  let received := Z.of_nat (length (mjoin (chunks r))) in
  let declared := declared_size (content_length r) in
  let after := download_model_weights (Answered r) true m in
  fst after = inr tt ∧
  disk (snd after) = <[file_name := mjoin (chunks r)]> (disk m) ∧
  requested (snd after) = requested m ++ [url] ∧
  (declared = 0 ∨ received = declared →
     stdout (snd after) =
       stdout m ++ ["Downloading pre-trained model weights: yolov8n.pt";
                    "Successfully downloaded 'yolov8n.pt'."]) ∧
  (declared ≠ 0 ∧ received ≠ declared →
     stdout (snd after) =
       stdout m ++ ["Downloading pre-trained model weights: yolov8n.pt";
                    "ERROR, something went wrong during download."]).
Proof.
  intros Hnone Hok Hlen Hstream received declared after.
  unfold after. rewrite download_opened by done. rewrite Hstream.
  cbn [fst snd disk stdout requested]. fold received declared.
  split; [done|]. split; [done|]. split; [done|]. unfold verdict. split.
  - intros [E|E].
    + by rewrite (bool_decide_eq_false_2 (declared ≠ 0)) by (intros N; by apply N).
    + rewrite (bool_decide_eq_false_2 (received ≠ declared)) by (intros N; by apply N).
      by rewrite andb_false_r.
  - intros [N1 N2]. by rewrite !bool_decide_eq_true_2 by done.
Qed.

Lemma short_answer_is_reported :
  disk empty_machine !! file_name = None ∧
  acceptable short_answer ∧ content_length short_answer ≠ Malformed ∧
  stream_error short_answer = None ∧
  disk (snd (download_model_weights (Answered short_answer) true empty_machine))
    !! file_name = Some [Byte.x50; Byte.x4b; Byte.x03] ∧
  stdout (snd (download_model_weights (Answered short_answer) true empty_machine)) =
    ["Downloading pre-trained model weights: yolov8n.pt";
     "ERROR, something went wrong during download."].
Proof.
  assert (disk empty_machine !! file_name = None) as H1 by reflexivity.
  assert (acceptable short_answer) as H2 by (unfold acceptable; cbn; lia).
  assert (content_length short_answer ≠ Malformed) as H3 by done.
  assert (stream_error short_answer = None) as H4 by reflexivity.
  destruct (completed_download short_answer empty_machine H1 H2 H3 H4)
    as (_ & Hd & _ & _ & Hout).
  split; [exact H1|]. split; [exact H2|]. split; [exact H3|]. split; [exact H4|].
  split.
  - rewrite Hd. reflexivity.
  - apply Hout. cbn. split; lia.
Defined.

(** X12. When the file is missing and the server cannot be reached, or
    answers with a status from 400 to 599, the error is caught: the script
    returns normally after one request, creates no file and prints the four
    lines of guidance, among them the details of the error and the address
    for a manual download. *)
Theorem refused_download_leaves_no_file
    (net : network) (writable : bool) (m : machine) (e : string) :
  disk m !! file_name = None →
  (net = Unreachable e ∨
   ∃ r, net = Answered r ∧ 400 ≤ status_code r < 600 ∧ e = status_error r) →
  let after := download_model_weights net writable m in
  fst after = inr tt ∧
  disk (snd after) = disk m ∧
  requested (snd after) = requested m ++ [url] ∧
  stdout (snd after) =
    stdout m ++
    ["Downloading pre-trained model weights: yolov8n.pt";
     nl +:+ "An error occurred while trying to download the model.";
     "Error details: " +:+ e;
     nl +:+ "Please check your internet connection, firewall, or proxy settings.";
     "Alternatively, you can manually download the file from:" +:+ nl +:+
     "https://github.com/ultralytics/assets/releases/download/v8.3.0/yolov8n.pt" +:+
     nl +:+ "and place it in the same directory as this script."].
Proof.
  intros Hnone Hnet after. unfold after.
  by rewrite (download_refused net writable m e Hnone Hnet).
Qed.

Lemma missing_answer_leaves_no_file :
  disk empty_machine !! file_name = None ∧
  (Answered missing_answer = Unreachable "404 Client Error: Not Found" ∨
   ∃ r, Answered missing_answer = Answered r ∧ 400 ≤ status_code r < 600 ∧
        "404 Client Error: Not Found" = status_error r) ∧
  fst (download_model_weights (Answered missing_answer) true empty_machine) = inr tt ∧
  disk (snd (download_model_weights (Answered missing_answer) true empty_machine)) = ∅.
Proof.
  assert (disk empty_machine !! file_name = None) as H1 by reflexivity.
  assert (Answered missing_answer = Unreachable "404 Client Error: Not Found" ∨
          ∃ r, Answered missing_answer = Answered r ∧ 400 ≤ status_code r < 600 ∧
               "404 Client Error: Not Found" = status_error r) as H2.
  { right. exists missing_answer. split; [done|]. split; [cbn; lia | done]. }
  destruct (refused_download_leaves_no_file _ true _ _ H1 H2) as (Hr & Hd & _).
  split; [exact H1|]. split; [exact H2|]. split; [exact Hr|]. exact Hd.
Defined.

(** X13. Once the file has been opened, the bytes received stay on disk
    even when the stream breaks or the length does not match, and the next
    run, whatever the network then offers, finds the file, skips the
    download and leaves the partial file as it is. *)
Theorem partial_file_blocks_retry
    (r : response) (m : machine) (net' : network) (writable' : bool) :
  disk m !! file_name = None →
  acceptable r → content_length r ≠ Malformed →
  let first := snd (download_model_weights (Answered r) true m) in
  let second := snd (download_model_weights net' writable' first) in
  disk first !! file_name = Some (mjoin (chunks r)) ∧
  disk second = disk first ∧
  requested second = requested m ++ [url] ∧
  stdout second = stdout first ++ ["'yolov8n.pt' already exists. Skipping download."].
Proof.
  intros Hnone Hok Hlen first second.
  assert (disk first !! file_name = Some (mjoin (chunks r))) as Hfile.
  { unfold first. rewrite download_opened by done. cbn [snd disk].
    apply lookup_insert_eq. }
  split; [exact Hfile|]. unfold second.
  rewrite (download_skipped net' writable' first _ Hfile).
  cbn [snd disk stdout requested].
  split; [done|]. split; [|done].
  unfold first. by rewrite download_opened by done.
Qed.

Lemma short_answer_blocks_retry :
  disk empty_machine !! file_name = None ∧
  acceptable short_answer ∧ content_length short_answer ≠ Malformed ∧
  requested (snd (download_model_weights (Answered short_answer) true
    (snd (download_model_weights (Answered short_answer) true empty_machine)))) = [url].
Proof.
  assert (disk empty_machine !! file_name = None) as H1 by reflexivity.
  assert (acceptable short_answer) as H2 by (unfold acceptable; cbn; lia).
  assert (content_length short_answer ≠ Malformed) as H3 by done.
  destruct (partial_file_blocks_retry short_answer empty_machine
              (Answered short_answer) true H1 H2 H3) as (_ & _ & Hreq & _).
  split; [exact H1|]. split; [exact H2|]. split; [exact H3|]. exact Hreq.
Defined.

(** A download stopped by an error that is not a request error. *)
Lemma download_escapes (r : response) (writable : bool) (m : machine) :
  disk m !! file_name = None →
  acceptable r →
  content_length r = Malformed ∨ writable = false →
  download_model_weights (Answered r) writable m =
    (inl (match content_length r with
          | Malformed => ValueError
          | _ => OSError
          end),
     {| disk := disk m;
        stdout := stdout m ++ ["Downloading pre-trained model weights: yolov8n.pt"];
        requested := requested m ++ [url] |}).
Proof.
  intros Hnone Hok Hcase.
  unfold download_model_weights, mbind, S_bind, path_exists.
  rewrite Hnone. rewrite bool_decide_eq_false_2 by (by intros [? ?]).
  unfold print at 1. cbn [disk stdout requested].
  unfold try_except_request, download_body, mbind, S_bind, get.
  rewrite raise_for_status_ok by done. unfold total_size.
  destruct (content_length r) eqn:E; unfold throw, mret, S_ret, open_wb.
  3: done.
  all: by destruct Hcase as [?| ->].
Qed.

(** X14. Errors that are not request errors escape the handler: a length
    header that is not a number raises [ValueError] before any file is
    created, and a file that cannot be opened raises [OSError]; in both
    cases the disk is as it was and no guidance is printed. *)
Theorem other_errors_escape (r : response) (writable : bool) (m : machine) :
  disk m !! file_name = None →
  acceptable r →
  content_length r = Malformed ∨ writable = false →
  let after := download_model_weights (Answered r) writable m in
  fst after = inl (match content_length r with
                   | Malformed => ValueError
                   | _ => OSError
                   end) ∧
  disk (snd after) = disk m ∧
  stdout (snd after) = stdout m ++ ["Downloading pre-trained model weights: yolov8n.pt"].
Proof.
  intros Hnone Hok Hcase after. unfold after.
  by rewrite (download_escapes r writable m Hnone Hok Hcase).
Qed.

Lemma garbled_answer_escapes :
  disk empty_machine !! file_name = None ∧
  acceptable garbled_answer ∧
  (content_length garbled_answer = Malformed ∨ true = false) ∧
  fst (download_model_weights (Answered garbled_answer) true empty_machine) =
    inl ValueError ∧
  disk (snd (download_model_weights (Answered garbled_answer) true empty_machine)) = ∅.
Proof.
  assert (disk empty_machine !! file_name = None) as H1 by reflexivity.
  assert (acceptable garbled_answer) as H2 by (unfold acceptable; cbn; lia).
  assert (content_length garbled_answer = Malformed ∨ true = false) as H3 by by left.
  destruct (other_errors_escape garbled_answer true empty_machine H1 H2 H3)
    as (Hr & Hd & _).
  split; [exact H1|]. split; [exact H2|]. split; [exact H3|].
  split; [exact Hr | exact Hd].
Defined.

End Download.

(** * Properties of train.py *)

Section Training.
Import TrainPy.

Lemma verify_gpu_setup_device (r : rig) :
  snd (verify_gpu_setup r) =
    match cuda_is_available r, cuda_device_name r with
    | Fine true, Fine _ => Some 0
    | _, _ => None
    end.
Proof.
  unfold verify_gpu_setup.
  by destruct (cuda_is_available r) as [[]|], (cuda_device_name r).
Qed.

(** X15. Training is started exactly when CUDA is reported available, the
    name of device 0 can be read, both [data.yaml] and [yolov8n.pt] exist
    and the weights load; it is then started once, on device 0, for 100
    epochs at image size 640.  The weights are loaded only after the GPU
    check and the file check have passed; without a GPU the files are not
    even looked for.  The GPU check yields device 0 or nothing. *)
Theorem training_needs_gpu_and_files (sep : string) (r : rig) :
  let data_yaml := "Brain-Tumor-Detection-1" +:+ sep +:+ "data.yaml" in
  let gpu := match cuda_is_available r, cuda_device_name r with
             | Fine true, Fine _ => true
             | _, _ => false
             end in
  let files := present r data_yaml && present r "yolov8n.pt" in
  let loads := match yolo_loads r with Fine _ => true | Fails _ => false end in
  snd (verify_gpu_setup r) = (if gpu then Some 0 else None) ∧
  List.filter is_train (train_model sep r) =
    (if gpu && files && loads
     then [Train data_yaml 100 640 0 "runs/training" "brain_tumor_yolov8_gpu"]
     else []) ∧
  List.filter is_load (train_model sep r) =
    (if gpu && files then [LoadYOLO "yolov8n.pt"] else []) ∧
  (gpu = false → train_model sep r = fst (verify_gpu_setup r)).
Proof.
  intros data_yaml gpu files loads.
  unfold gpu, files, loads, data_yaml, train_model, verify_gpu_setup, path_join.
  destruct (cuda_is_available r) as [[]|e1]; [|by cbn..].
  destruct (cuda_device_name r) as [name|e2]; [|by cbn].
  cbn [forallb negb andb fst snd].
  destruct (present r ("Brain-Tumor-Detection-1" +:+ sep +:+ "data.yaml"));
    [|by cbn].
  destruct (present r "yolov8n.pt"); [|by cbn].
  cbn [andb negb].
  destruct (yolo_loads r) as [[]|e3]; [|by cbn].
  destruct (training r) as [[]|e4]; by cbn.
Qed.

End Training.
